(** * Webull client: session, order gateway and streaming engine

    A shallow embedding of the parts of the [webull] Rust crate that carry
    the session, order and streaming logic: [src/src/stream.rs]
    ([StreamConn]), [src/src/client.rs] ([LiveWebullClient],
    [PaperWebullClient]), [src/src/models.rs] ([OrderStatus],
    [PlaceOrderRequestBuilder]), [src/src/builders.rs]
    ([PlaceOrderBuilderWithClient]) and [src/src/utils.rs] (credential and
    interval checks).

    HTTP round trips are modelled by taking the server's answer (status and
    decoded JSON body) as an argument; the MQTT transport is modelled by the
    queue of requests the [AsyncClient] hands to its event loop; the JSON
    parser of [serde_json] is a parameter of the streaming section. *)

From Stdlib Require Import ZArith List Bool Ascii String Lia.
From stdpp Require Import base gmap strings pretty.
Import ListNotations.
Open Scope string_scope.
Local Set Warnings "-register-all".

(* ------------------------------------------------------------------ *)
(** ** JSON values ([serde_json::Value]) *)

(** Numbers are the integral ones the code inspects ([as_i64]); the
    code never reads a fractional number on the paths modelled here. *)
Inductive json : Type :=
| JNull
| JBool (b : bool)
| JNum (z : Z)
| JStr (s : string)
| JArr (xs : list json)
| JObj (fields : list (string * json)).

(** [Value::get(key)]: a field of an object, [None] on other values. *)
Definition jget (v : json) (k : string) : option json :=
  match v with
  | JObj fs =>
      match find (fun kv => String.eqb (fst kv) k) fs with
      | Some kv => Some (snd kv)
      | None => None
      end
  | _ => None
  end.

Definition as_str (v : json) : option string :=
  match v with JStr s => Some s | _ => None end.

Definition as_bool (v : json) : option bool :=
  match v with JBool b => Some b | _ => None end.

Definition as_array (v : json) : option (list json) :=
  match v with JArr xs => Some xs | _ => None end.

(** [as_i64]: an integral number inside the range of [i64]. *)
Definition as_i64 (v : json) : option Z :=
  match v with
  | JNum z => if (- 2 ^ 63 <=? z)%Z && (z <? 2 ^ 63)%Z then Some z else None
  | _ => None
  end.

(** [Option::and_then] with the argument order of the Rust chains. *)
Definition and_then {A B} (o : option A) (f : A -> option B) : option B :=
  match o with Some a => f a | None => None end.

(* ------------------------------------------------------------------ *)
(** ** Errors ([src/src/error.rs]) and results *)

(** The variants the modelled paths produce.  [ParseError] and
    [InvalidRequest] are the names [client.rs] and [builders.rs] use. *)
Inductive WebullError : Type :=
| RequestError (msg : string)
| JsonError (msg : string)
| AuthenticationError (msg : string)
| SessionExpired
| InvalidParameter (msg : string)
| ApiError (msg : string)
| TradeTokenNotAvailable
| AccountNotFound
| WebSocketError (msg : string)
| MqttError (msg : string)
| ParseError (msg : string)
| InvalidRequest (msg : string).

Inductive result (A : Type) : Type :=
| Ok (a : A)
| Err (e : WebullError).
Arguments Ok {A} a.
Arguments Err {A} e.

Definition is_err {A} (r : result A) : bool :=
  match r with Err _ => true | Ok _ => false end.

(** The double quote character, for the JSON topic keys built with
    [format!]. *)
Definition dq : string := String (ascii_of_nat 34) EmptyString.

(** [str::contains] for a string needle. *)
Fixpoint str_contains (needle hay : string) : bool :=
  String.prefix needle hay ||
  match hay with
  | EmptyString => false
  | String _ rest => str_contains needle rest
  end.

(* ------------------------------------------------------------------ *)
(** ** Streaming engine ([src/src/stream.rs], [StreamConn]) *)

Module Stream.

(** Requests the [AsyncClient] queues for the MQTT event loop. *)
Inductive MqttRequest : Type :=
| Subscribe (topic : string)
| Unsubscribe (topic : string)
| Disconnect.

(** A user callback invocation, with the arguments it received. *)
Inductive CallbackCall : Type :=
| PriceCall (topic payload : json)
| OrderCall (topic payload : json).

(** [AsyncClient]: a handle on the request channel of the event loop;
    a request fails with [ClientError] once that channel is closed. *)
Record AsyncClient : Type := mkClient {
  client_id : string;
  chan_open : bool
}.

(** [StreamConn] together with what it shares with the spawned event
    loop.  [requests] is the request queue of the transport, [calls] the
    callbacks invoked so far.  [debug] only controls logging and is left
    out. *)
Record StreamConn : Type := mkStreamConn {
  client : option AsyncClient;
  price_callback : bool;
  order_callback : bool;
  total_volume : gmap string Z;
  subscriptions : list string;
  is_connected : bool;
  requests : list MqttRequest;
  calls : list CallbackCall
}.

Definition set_client (c : option AsyncClient) (st : StreamConn) : StreamConn :=
  mkStreamConn c (price_callback st) (order_callback st) (total_volume st)
    (subscriptions st) (is_connected st) (requests st) (calls st).

Definition set_subscriptions (l : list string) (st : StreamConn) : StreamConn :=
  mkStreamConn (client st) (price_callback st) (order_callback st)
    (total_volume st) l (is_connected st) (requests st) (calls st).

Definition set_connected (b : bool) (st : StreamConn) : StreamConn :=
  mkStreamConn (client st) (price_callback st) (order_callback st)
    (total_volume st) (subscriptions st) b (requests st) (calls st).

Definition set_volume (m : gmap string Z) (st : StreamConn) : StreamConn :=
  mkStreamConn (client st) (price_callback st) (order_callback st) m
    (subscriptions st) (is_connected st) (requests st) (calls st).

Definition push_request (r : MqttRequest) (st : StreamConn) : StreamConn :=
  mkStreamConn (client st) (price_callback st) (order_callback st)
    (total_volume st) (subscriptions st) (is_connected st)
    (requests st ++ [r]) (calls st).

Definition push_call (c : CallbackCall) (st : StreamConn) : StreamConn :=
  mkStreamConn (client st) (price_callback st) (order_callback st)
    (total_volume st) (subscriptions st) (is_connected st)
    (requests st) (calls st ++ [c]).

(** [StreamConn::new]. *)
Definition new (price_cb order_cb : bool) : StreamConn :=
  mkStreamConn None price_cb order_cb ∅ [] false [] [].

(** [AsyncClient::subscribe] / [unsubscribe] / [disconnect]: once the
    request channel is closed they fail with rumqttc's [ClientError],
    whose [to_string()] the callers' [map_err] wraps in [MqttError]. *)
Definition client_error_text : string := "Failed to send mqtt requests to eventloop".

Definition client_send (c : AsyncClient) (r : MqttRequest) (st : StreamConn)
  : result unit * StreamConn :=
  if chan_open c then (Ok tt, push_request r st)
  else (Err (MqttError client_error_text), st).

(** [format!("{{\"tickerId\":\"{}\",\"type\":{}}}", ticker_id, topic_type)] *)
Definition ticker_topic (ticker_id : string) (topic_type : Z) : string :=
  "{" ++ dq ++ "tickerId" ++ dq ++ ":" ++ dq ++ ticker_id ++ dq ++ ","
      ++ dq ++ "type" ++ dq ++ ":" ++ pretty topic_type ++ "}".

(** [format!("{{\"secAccountId\":\"{}\"}}", account_id)] *)
Definition order_topic (account_id : string) : string :=
  "{" ++ dq ++ "secAccountId" ++ dq ++ ":" ++ dq ++ account_id ++ dq ++ "}".

Definition not_connected {A} (st : StreamConn) : result A * StreamConn :=
  (Err (WebSocketError "Not connected"), st).

(** The [for topic_type in topics] loop of [subscribe_ticker]: send, then
    [self.subscriptions.write().push(topic)]; [?] returns early. *)
Fixpoint subscribe_loop (c : AsyncClient) (ticker_id : string) (topics : list Z)
    (st : StreamConn) : result unit * StreamConn :=
  match topics with
  | [] => (Ok tt, st)
  | t :: rest =>
      let topic := ticker_topic ticker_id t in
      match client_send c (Subscribe topic) st with
      | (Err e, st') => (Err e, st')
      | (Ok _, st') =>
          subscribe_loop c ticker_id rest
            (set_subscriptions (subscriptions st' ++ [topic]) st')
      end
  end.

Definition subscribe_ticker (ticker_id : string) (topics : list Z)
    (st : StreamConn) : result unit * StreamConn :=
  match client st with
  | Some c => subscribe_loop c ticker_id topics st
  | None => not_connected st
  end.

Definition subscribe_orders (account_id : string) (st : StreamConn)
  : result unit * StreamConn :=
  match client st with
  | Some c =>
      let topic := order_topic account_id in
      match client_send c (Subscribe topic) st with
      | (Err e, st') => (Err e, st')
      | (Ok _, st') => (Ok tt, set_subscriptions (subscriptions st' ++ [topic]) st')
      end
  | None => not_connected st
  end.

(** The loop of [unsubscribe_ticker]: [retain(|t| t != &topic)]. *)
Fixpoint unsubscribe_loop (c : AsyncClient) (ticker_id : string) (topics : list Z)
    (st : StreamConn) : result unit * StreamConn :=
  match topics with
  | [] => (Ok tt, st)
  | t :: rest =>
      let topic := ticker_topic ticker_id t in
      match client_send c (Unsubscribe topic) st with
      | (Err e, st') => (Err e, st')
      | (Ok _, st') =>
          unsubscribe_loop c ticker_id rest
            (set_subscriptions
               (filter (fun x => negb (String.eqb x topic)) (subscriptions st')) st')
      end
  end.

Definition unsubscribe_ticker (ticker_id : string) (topics : list Z)
    (st : StreamConn) : result unit * StreamConn :=
  match client st with
  | Some c => unsubscribe_loop c ticker_id topics st
  | None => not_connected st
  end.

(** The loop of [unsubscribe_all] over a snapshot of the subscriptions. *)
Fixpoint unsubscribe_each (c : AsyncClient) (topics : list string)
    (st : StreamConn) : result unit * StreamConn :=
  match topics with
  | [] => (Ok tt, st)
  | t :: rest =>
      match client_send c (Unsubscribe t) st with
      | (Err e, st') => (Err e, st')
      | (Ok _, st') => unsubscribe_each c rest st'
      end
  end.

Definition unsubscribe_all (st : StreamConn) : result unit * StreamConn :=
  match client st with
  | Some c =>
      match unsubscribe_each c (subscriptions st) st with
      | (Err e, st') => (Err e, st')
      | (Ok _, st') => (Ok tt, set_subscriptions [] st')
      end
  | None => not_connected st
  end.

(** [get_subscriptions]. *)
Definition get_subscriptions (st : StreamConn) : list string := subscriptions st.

(** Events yielded by [eventloop.poll()]: [Ok(event)] for the packets the
    loop distinguishes, [Err(_)] for a transport error (after which the loop
    sleeps and polls again, which makes the transport reconnect). *)
Inductive PollEvent : Type :=
| EvConnAck
| EvPublish (topic : string) (payload : list Byte.byte)
| EvDisconnect
| EvOtherPacket
| EvError.

Section Dispatch.

(** [serde_json::from_str] on the topic and [serde_json::from_slice] on the
    payload: the JSON parser is external to the crate. *)
Variable parse_topic : string -> option json.
Variable parse_payload : list Byte.byte -> option json.

(** [StreamConn::handle_message]; [price_cb] and [order_cb] say whether
    the callbacks cloned into the event loop are set. *)
Definition handle_message (price_cb order_cb : bool) (topic : string)
    (payload : list Byte.byte) (st : StreamConn) : StreamConn :=
  match parse_topic topic with
  | None => st
  | Some topic_json =>
      match parse_payload payload with
      | None => st
      | Some payload_json =>
          if str_contains "platpush" topic then
            if order_cb then push_call (OrderCall topic_json payload_json) st
            else st
          else if str_contains "wspush" topic || str_contains "ticker" topic then
            let st1 :=
              match and_then (jget topic_json "tickerId") as_str with
              | Some ticker_id =>
                  match and_then (jget payload_json "volume") as_i64 with
                  | Some volume =>
                      set_volume (<[ticker_id := volume]> (total_volume st)) st
                  | None => st
                  end
              | None => st
              end in
            if price_cb then push_call (PriceCall topic_json payload_json) st1
            else st1
          else st
      end
  end.

(** One iteration of the [loop] spawned by [connect]. *)
Definition loop_step (price_cb order_cb : bool) (ev : PollEvent)
    (st : StreamConn) : StreamConn :=
  match ev with
  | EvConnAck => set_connected true st
  | EvPublish topic payload => handle_message price_cb order_cb topic payload st
  | EvDisconnect => set_connected false st
  | EvOtherPacket => st
  | EvError => set_connected false st
  end.

Fixpoint run_loop (price_cb order_cb : bool) (evs : list PollEvent)
    (st : StreamConn) : StreamConn :=
  match evs with
  | [] => st
  | ev :: rest => run_loop price_cb order_cb rest (loop_step price_cb order_cb ev st)
  end.

(** [connect]: a fresh client is stored, the loop is spawned with the
    callbacks set at this moment, and the call succeeds when the loop has
    seen a [ConnAck] within the polling window; [window] are the events the
    loop handles during that window. *)
Definition connect (client_id : string) (window : list PollEvent)
    (st : StreamConn) : result unit * StreamConn :=
  let st1 := set_client (Some (mkClient client_id true)) st in
  let st2 := run_loop (price_callback st) (order_callback st) window st1 in
  if is_connected st2 then (Ok tt, st2)
  else (Err (WebSocketError "Failed to connect to streaming service"), st2).

End Dispatch.

(** [StreamConn::disconnect]: unsubscribe everything, [self.client.take()],
    send the disconnect request, then clear the connected flag. *)
Definition disconnect (st : StreamConn) : result unit * StreamConn :=
  match client st with
  | Some _ =>
      match unsubscribe_all st with
      | (Err e, st') => (Err e, st')
      | (Ok _, st') =>
          match client st' with
          | Some c =>
              match client_send c Disconnect (set_client None st') with
              | (Err e, st'') => (Err e, st'')
              | (Ok _, st'') => (Ok tt, set_connected false st'')
              end
          | None => (Ok tt, set_connected false st')
          end
      end
  | None => (Ok tt, st)
  end.

(** [StreamConn::get_total_volume]. *)
Definition get_total_volume (ticker_id : string) (st : StreamConn) : option Z :=
  total_volume st !! ticker_id.

End Stream.

(* ------------------------------------------------------------------ *)
(** ** Order model ([src/src/models.rs]) *)

Module Orders.

Inductive OrderAction : Type := Buy | Sell.

Inductive OrderType : Type := Market | Limit | Stop | StopLimit.

Inductive TimeInForce : Type :=
| Day | GoodTillCancel | ImmediateOrCancel | FillOrKill.

Inductive OrderStatus : Type :=
| Working | Pending | Submitted | PartialFilled | Filled | Cancelled
| Failed | Rejected.

(** [#[derive(Deserialize)]] on [OrderStatus]: each variant is read from
    its [#[serde(rename = ...)]] string, anything else is an error. *)
Definition deserialize_order_status (s : string) : option OrderStatus :=
  if String.eqb s "Working" then Some Working
  else if String.eqb s "Pending" then Some Pending
  else if String.eqb s "Submitted" then Some Submitted
  else if String.eqb s "PartialFilled" then Some PartialFilled
  else if String.eqb s "Filled" then Some Filled
  else if String.eqb s "Cancelled" then Some Cancelled
  else if String.eqb s "Failed" then Some Failed
  else if String.eqb s "Rejected" then Some Rejected
  else None.

(** The [status] match of [PaperWebullClient::parse_paper_order] on
    [order_val.get("status").and_then(|v| v.as_str())]; the arms of a
    match on [&str] are string comparisons tried in order. *)
Definition paper_status (s : option string) : OrderStatus :=
  match s with
  | Some s =>
      if String.eqb s "Working" then Working
      else if String.eqb s "Filled" then Filled
      else if String.eqb s "Canceled" || String.eqb s "Cancelled" then Cancelled
      else if String.eqb s "PartiallyFilled" || String.eqb s "Partial Filled"
      then PartialFilled
      else if String.eqb s "Pending" then Pending
      else if String.eqb s "Failed" then Failed
      else Working
  | None => Working
  end.

Section Requests.

(** [f64], whose values the validation paths only test for presence. *)
Variable f64 : Type.

(** [PlaceOrderRequest]. *)
Record PlaceOrderRequest : Type := mkRequest {
  ticker_id : Z;
  action : OrderAction;
  order_type : OrderType;
  time_in_force : TimeInForce;
  quantity : f64;
  limit_price : option f64;
  stop_price : option f64;
  outside_regular_trading_hour : bool;
  serial_id : option string;
  combo_type : option string
}.

(** [PlaceOrderRequestBuilder]. *)
Record PlaceOrderRequestBuilder : Type := mkBuilder {
  b_ticker_id : option Z;
  b_action : option OrderAction;
  b_order_type : OrderType;
  b_time_in_force : TimeInForce;
  b_quantity : option f64;
  b_limit_price : option f64;
  b_stop_price : option f64;
  b_outside_regular_trading_hour : bool;
  b_serial_id : option string;
  b_combo_type : option string
}.

(** [Result<PlaceOrderRequest, String>]. *)
Inductive BuildResult : Type :=
| Built (r : PlaceOrderRequest)
| BuildError (msg : string).

(** [PlaceOrderRequestBuilder::build]. *)
Definition build (b : PlaceOrderRequestBuilder) : BuildResult :=
  match b_ticker_id b with
  | None => BuildError "ticker_id is required"
  | Some tid =>
  match b_action b with
  | None => BuildError "action is required"
  | Some act =>
  match b_quantity b with
  | None => BuildError "quantity is required"
  | Some q =>
      let ok := Built (mkRequest tid act (b_order_type b) (b_time_in_force b) q
                         (b_limit_price b) (b_stop_price b)
                         (b_outside_regular_trading_hour b) (b_serial_id b)
                         (b_combo_type b)) in
      match b_order_type b with
      | Limit =>
          match b_limit_price b with
          | None => BuildError "Limit order requires limit_price"
          | Some _ => ok
          end
      | Stop =>
          match b_stop_price b with
          | None => BuildError "Stop order requires stop_price"
          | Some _ => ok
          end
      | StopLimit =>
          match b_limit_price b, b_stop_price b with
          | None, _ => BuildError "StopLimit order requires limit_price"
          | Some _, None => BuildError "StopLimit order requires stop_price"
          | Some _, Some _ => ok
          end
      | Market => ok
      end
  end end end.

(** The fields of [PlaceOrderBuilderWithClient] ([src/src/builders.rs]). *)
Record FluentOrder : Type := mkFluent {
  f_ticker_id : option Z;
  f_action : option OrderAction;
  f_order_type : option OrderType;
  f_time_in_force : TimeInForce;
  f_quantity : option f64;
  f_limit_price : option f64;
  f_stop_price : option f64;
  f_outside_regular_trading_hour : bool;
  f_serial_id : option string;
  f_combo_type : option string
}.

Definition is_some {A} (o : option A) : bool :=
  match o with Some _ => true | None => false end.

(** [into_future] of [PlaceOrderBuilderWithClient] up to the call of
    [client.place_order(&order)]: the request it would place, or the
    [InvalidRequest] it returns. *)
Definition fluent_request (f : FluentOrder) : result PlaceOrderRequest :=
  match f_ticker_id f with
  | None => Err (InvalidRequest "ticker_id is required")
  | Some tid =>
  match f_action f with
  | None => Err (InvalidRequest "action is required")
  | Some act =>
  match f_quantity f with
  | None => Err (InvalidRequest "quantity is required")
  | Some q =>
      let ot :=
        match f_order_type f with
        | Some t => t
        | None =>
            match is_some (f_limit_price f), is_some (f_stop_price f) with
            | true, true => StopLimit
            | true, false => Limit
            | false, true => Stop
            | false, false => Market
            end
        end in
      let ok := Ok (mkRequest tid act ot (f_time_in_force f) q (f_limit_price f)
                      (f_stop_price f) (f_outside_regular_trading_hour f)
                      (f_serial_id f) (f_combo_type f)) in
      match ot with
      | Limit =>
          if is_some (f_limit_price f) then ok
          else Err (InvalidRequest "Limit order requires limit_price")
      | Stop =>
          if is_some (f_stop_price f) then ok
          else Err (InvalidRequest "Stop order requires stop_price")
      | StopLimit =>
          if negb (is_some (f_limit_price f))
          then Err (InvalidRequest "StopLimit order requires limit_price")
          else if negb (is_some (f_stop_price f))
          then Err (InvalidRequest "StopLimit order requires stop_price")
          else ok
      | Market => ok
      end
  end end end.

End Requests.

Arguments mkRequest {f64}.
Arguments mkBuilder {f64}.
Arguments mkFluent {f64}.
Arguments Built {f64}.
Arguments BuildError {f64}.
Arguments ticker_id {f64}.
Arguments action {f64}.
Arguments order_type {f64}.
Arguments time_in_force {f64}.
Arguments quantity {f64}.
Arguments limit_price {f64}.
Arguments stop_price {f64}.
Arguments outside_regular_trading_hour {f64}.
Arguments serial_id {f64}.
Arguments combo_type {f64}.
Arguments b_ticker_id {f64}.
Arguments b_action {f64}.
Arguments b_order_type {f64}.
Arguments b_time_in_force {f64}.
Arguments b_quantity {f64}.
Arguments b_limit_price {f64}.
Arguments b_stop_price {f64}.
Arguments b_outside_regular_trading_hour {f64}.
Arguments b_serial_id {f64}.
Arguments b_combo_type {f64}.
Arguments f_ticker_id {f64}.
Arguments f_action {f64}.
Arguments f_order_type {f64}.
Arguments f_time_in_force {f64}.
Arguments f_quantity {f64}.
Arguments f_limit_price {f64}.
Arguments f_stop_price {f64}.
Arguments f_outside_regular_trading_hour {f64}.
Arguments f_serial_id {f64}.
Arguments f_combo_type {f64}.

Section Constructors.
Context {f64 : Type}.

(** [PlaceOrderRequestBuilder::new] and its setters ([src/src/models.rs]). *)
Definition builder_new (ot : OrderType) : PlaceOrderRequestBuilder f64 :=
  mkBuilder None None ot Day None None None false None None.

Definition with_ticker_id (tid : Z) (b : PlaceOrderRequestBuilder f64) :=
  mkBuilder (Some tid) (b_action b) (b_order_type b) (b_time_in_force b) (b_quantity b)
            (b_limit_price b) (b_stop_price b) (b_outside_regular_trading_hour b)
            (b_serial_id b) (b_combo_type b).

Definition with_action (a : OrderAction) (b : PlaceOrderRequestBuilder f64) :=
  mkBuilder (b_ticker_id b) (Some a) (b_order_type b) (b_time_in_force b) (b_quantity b)
            (b_limit_price b) (b_stop_price b) (b_outside_regular_trading_hour b)
            (b_serial_id b) (b_combo_type b).

Definition with_quantity (q : f64) (b : PlaceOrderRequestBuilder f64) :=
  mkBuilder (b_ticker_id b) (b_action b) (b_order_type b) (b_time_in_force b) (Some q)
            (b_limit_price b) (b_stop_price b) (b_outside_regular_trading_hour b)
            (b_serial_id b) (b_combo_type b).

Definition with_limit_price (p : f64) (b : PlaceOrderRequestBuilder f64) :=
  mkBuilder (b_ticker_id b) (b_action b) (b_order_type b) (b_time_in_force b) (b_quantity b)
            (Some p) (b_stop_price b) (b_outside_regular_trading_hour b)
            (b_serial_id b) (b_combo_type b).

Definition with_stop_price (p : f64) (b : PlaceOrderRequestBuilder f64) :=
  mkBuilder (b_ticker_id b) (b_action b) (b_order_type b) (b_time_in_force b) (b_quantity b)
            (b_limit_price b) (Some p) (b_outside_regular_trading_hour b)
            (b_serial_id b) (b_combo_type b).

(** [PlaceOrderRequest::market], [limit], [stop] and [stop_limit]. *)
Definition request_market : PlaceOrderRequestBuilder f64 := builder_new Market.
Definition request_limit (p : f64) := with_limit_price p (builder_new Limit).
Definition request_stop (p : f64) := with_stop_price p (builder_new Stop).
Definition request_stop_limit (sp lp : f64) :=
  with_limit_price lp (with_stop_price sp (builder_new StopLimit)).

(** [PlaceOrderBuilderWithClient::new] and [new_with_type]
    ([src/src/builders.rs]); the client reference is not part of the
    model. *)
Definition fluent_new : FluentOrder f64 :=
  mkFluent None None None Day None None None false None None.

Definition fluent_new_with_type (ot : OrderType) : FluentOrder f64 :=
  mkFluent None None (Some ot) Day None None None false None None.

Definition fluent_ticker_id (tid : Z) (f : FluentOrder f64) :=
  mkFluent (Some tid) (f_action f) (f_order_type f) (f_time_in_force f) (f_quantity f)
           (f_limit_price f) (f_stop_price f) (f_outside_regular_trading_hour f)
           (f_serial_id f) (f_combo_type f).

Definition fluent_action (a : OrderAction) (f : FluentOrder f64) :=
  mkFluent (f_ticker_id f) (Some a) (f_order_type f) (f_time_in_force f) (f_quantity f)
           (f_limit_price f) (f_stop_price f) (f_outside_regular_trading_hour f)
           (f_serial_id f) (f_combo_type f).

Definition fluent_quantity (q : f64) (f : FluentOrder f64) :=
  mkFluent (f_ticker_id f) (f_action f) (f_order_type f) (f_time_in_force f) (Some q)
           (f_limit_price f) (f_stop_price f) (f_outside_regular_trading_hour f)
           (f_serial_id f) (f_combo_type f).

(** [limit] (and its alias [limit_price]). *)
Definition fluent_limit (p : f64) (f : FluentOrder f64) :=
  mkFluent (f_ticker_id f) (f_action f) (f_order_type f) (f_time_in_force f) (f_quantity f)
           (Some p) (f_stop_price f) (f_outside_regular_trading_hour f)
           (f_serial_id f) (f_combo_type f).

(** [stop] (and its alias [stop_price]). *)
Definition fluent_stop (p : f64) (f : FluentOrder f64) :=
  mkFluent (f_ticker_id f) (f_action f) (f_order_type f) (f_time_in_force f) (f_quantity f)
           (f_limit_price f) (Some p) (f_outside_regular_trading_hour f)
           (f_serial_id f) (f_combo_type f).

(** [market], [limit_order], [stop_order] and [stop_limit_order]. *)
Definition fluent_market : FluentOrder f64 := fluent_new_with_type Market.
Definition fluent_limit_order (p : f64) := fluent_limit p (fluent_new_with_type Limit).
Definition fluent_stop_order (p : f64) := fluent_stop p (fluent_new_with_type Stop).
Definition fluent_stop_limit_order (sp lp : f64) :=
  fluent_limit lp (fluent_stop sp (fluent_new_with_type StopLimit)).

End Constructors.

End Orders.

(* ------------------------------------------------------------------ *)
(** ** Helpers of [src/src/utils.rs] *)

Module Utils.

(** [str::split] on a [char] separator: the pieces between separators,
    with an empty piece before a leading, after a trailing and between two
    adjacent separators. *)
Fixpoint split_on (c : ascii) (s : string) : list string :=
  match s with
  | EmptyString => [""]
  | String a rest =>
      let pieces := split_on c rest in
      if Ascii.eqb a c then "" :: pieces
      else match pieces with
           | p :: ps => String a p :: ps
           | [] => [String a ""]
           end
  end.

(** [str::contains] for a [char]. *)
Fixpoint has_char (c : ascii) (s : string) : bool :=
  match s with
  | EmptyString => false
  | String a rest => Ascii.eqb a c || has_char c rest
  end.

(** [str::starts_with] for a [char]. *)
Definition starts_with_char (c : ascii) (s : string) : bool :=
  match s with
  | String a _ => Ascii.eqb a c
  | EmptyString => false
  end.

Definition is_empty (s : string) : bool :=
  match s with EmptyString => true | _ => false end.

(** [validate_email]. *)
Definition validate_email (email : string) : bool :=
  let parts := split_on "@"%char email in
  if negb (Nat.eqb (length parts) 2) then false
  else
    let domain_parts := split_on "."%char (nth 1 parts "") in
    if Nat.ltb (length domain_parts) 2 then false
    else negb (is_empty (nth 0 parts "")) &&
         forallb (fun p => negb (is_empty p)) domain_parts.

(** [get_account_type]: [2] for an email, [1] for a phone number. *)
Definition get_account_type (username : string) : result Z :=
  if has_char "@"%char username then
    if validate_email username then Ok 2%Z
    else Err (InvalidParameter "Invalid email format")
  else if starts_with_char "+"%char username then Ok 1%Z
  else Ok 2%Z.

Definition valid_intervals : list string :=
  ["1m"; "3m"; "5m"; "15m"; "30m"; "60m"; "120m"; "240m"; "1h"; "2h"; "4h";
   "1d"; "1w"; "1M"; "d1"; "d5"; "m1"; "m5"; "m15"; "m30"; "m60"; "m120";
   "m240"; "h1"; "h2"; "h4"; "w1"; "mo1"].

(** [parse_interval]. *)
Definition parse_interval (interval : string) : result string :=
  if existsb (String.eqb interval) valid_intervals then Ok interval
  else Err (InvalidParameter ("Invalid interval: " ++ interval)).

End Utils.

(* ------------------------------------------------------------------ *)
(** ** Clients ([src/src/client.rs]) *)

Module Clients.
Import Orders.

(** The session fields of [LiveWebullClient]. *)
Record LiveSession : Type := mkSession {
  account_id : option string;
  trade_token : option string;
  access_token : option string;
  refresh_token : option string;
  token_expire : option Z;
  uuid : option string;
  did : string
}.

(** [PaperWebullClient]: the live client it delegates to and the paper
    account id. *)
Record PaperSession : Type := mkPaper {
  base_client : LiveSession;
  paper_account_id : option string
}.

(** What [.send().await] yields: a transport error, or a response with
    its status code and its body as [response.json()] decodes it ([None]
    when the body is not JSON). *)
Inductive HttpOutcome : Type :=
| SendError (msg : string)
| Response (status : Z) (body : option json).

(** [StatusCode::is_success]. *)
Definition is_success (status : Z) : bool := (200 <=? status)%Z && (status <? 300)%Z.

(** [response.json().await?]. *)
Definition response_json (r : HttpOutcome) : result json :=
  match r with
  | SendError m => Err (RequestError m)
  | Response _ (Some v) => Ok v
  | Response _ None => Err (RequestError "error decoding response body")
  end.

(** [LiveWebullClient::logout]. *)
Definition logout (s : LiveSession) (resp : HttpOutcome) : result bool * LiveSession :=
  match resp with
  | SendError m => (Err (RequestError m), s)
  | Response status _ =>
      if is_success status then
        (Ok true, mkSession None None None None None None (did s))
      else (Ok false, s)
  end.

(** The [match order_id_val] shared by both [place_order]s. *)
Definition order_id_string (v : json) : result string :=
  match v with
  | JStr s => Ok s
  | JNum n => Ok (pretty n)
  | _ => Err (ApiError "Invalid orderId format")
  end.

Definition or_else {A} (o : option A) (f : unit -> option A) : option A :=
  match o with Some a => Some a | None => f tt end.

Section Place.
Variable f64 : Type.

(** [LiveWebullClient::place_order]; [resp] is the answer of the POST.
    The JSON body that is sent is not modelled: it does not influence the
    result. *)
Definition live_place_order (s : LiveSession) (order : PlaceOrderRequest f64)
    (resp : HttpOutcome) : result string :=
  match account_id s with
  | None => Err AccountNotFound
  | Some _ =>
      match trade_token s with
      | None => Err TradeTokenNotAvailable
      | Some _ =>
          match response_json resp with
          | Err e => Err e
          | Ok result =>
              match or_else (and_then (jget result "data") (fun d => jget d "orderId"))
                            (fun _ => jget result "orderId") with
              | Some v => order_id_string v
              | None => Err (ApiError "Failed to place order")
              end
          end
      end
  end.

(** [PaperWebullClient::place_order]. *)
Definition paper_place_order (p : PaperSession) (order : PlaceOrderRequest f64)
    (resp : HttpOutcome) : result string :=
  match paper_account_id p with
  | None => Err AccountNotFound
  | Some _ =>
      match response_json resp with
      | Err e => Err e
      | Ok result =>
          match or_else (jget result "orderId")
                        (fun _ => and_then (jget result "data") (fun d => jget d "orderId")) with
          | Some v => order_id_string v
          | None => Err (ApiError "Failed to place paper order")
          end
      end
  end.

End Place.

(** Field updates of the session, as the [self.x = ..] assignments do them. *)
Definition set_account_id (v : option string) (s : LiveSession) : LiveSession :=
  mkSession v (trade_token s) (access_token s) (refresh_token s)
            (token_expire s) (uuid s) (did s).

Definition set_trade_token (v : option string) (s : LiveSession) : LiveSession :=
  mkSession (account_id s) v (access_token s) (refresh_token s)
            (token_expire s) (uuid s) (did s).

(** The access, refresh and expiry assignments shared by [login] and
    [refresh_login]. *)
Definition set_tokens (at_ : option string) (rt : option string) (te : option Z)
    (s : LiveSession) : LiveSession :=
  mkSession (account_id s) (trade_token s) at_ rt te (uuid s) (did s).

Definition set_uuid (v : option string) (s : LiveSession) : LiveSession :=
  mkSession (account_id s) (trade_token s) (access_token s) (refresh_token s)
            (token_expire s) v (did s).

(** The [match account_id] / [match paper_id] of the account lookups:
    a string, or a number rendered in decimal. *)
Definition id_string (v : json) : result string :=
  match v with
  | JStr s => Ok s
  | JNum n => Ok (pretty n)
  | _ => Err AccountNotFound
  end.

(** [LiveWebullClient::get_account_id]; [resp] is the answer of the GET. *)
Definition get_account_id (s : LiveSession) (resp : HttpOutcome)
    : result string * LiveSession :=
  match response_json resp with
  | Err e => (Err e, s)
  | Ok result =>
      match and_then (jget result "data") as_array with
      | Some (first_account :: _) =>
          match jget first_account "secAccountId" with
          | Some v =>
              match id_string v with
              | Ok id => (Ok id, set_account_id (Some id) s)
              | Err e => (Err e, s)
              end
          | None => (Err AccountNotFound, s)
          end
      | _ => (Err AccountNotFound, s)
      end
  end.

(** [LiveWebullClient::get_trade_token]; the hashed password only goes into
    the request body. *)
Definition get_trade_token (s : LiveSession) (resp : HttpOutcome)
    : result string * LiveSession :=
  match response_json resp with
  | Err e => (Err e, s)
  | Ok result =>
      match and_then (and_then (jget result "data") (fun d => jget d "tradeToken")) as_str with
      | Some t => (Ok t, set_trade_token (Some t) s)
      | None => (Err (AuthenticationError "Failed to get trade token"), s)
      end
  end.

(** [LiveWebullClient::cancel_order]: the answer's status decides. *)
Definition live_cancel_order (s : LiveSession) (order_id : string) (resp : HttpOutcome)
    : result bool :=
  match account_id s with
  | None => Err AccountNotFound
  | Some _ =>
      match trade_token s with
      | None => Err TradeTokenNotAvailable
      | Some _ =>
          match resp with
          | SendError m => Err (RequestError m)
          | Response status _ => Ok (is_success status)
          end
      end
  end.

(** [PaperWebullClient::cancel_order]. *)
Definition paper_cancel_order (p : PaperSession) (order_id : string) (resp : HttpOutcome)
    : result bool :=
  match paper_account_id p with
  | None => Err AccountNotFound
  | Some _ =>
      match resp with
      | SendError m => Err (RequestError m)
      | Response status _ => Ok (is_success status)
      end
  end.

(** [PaperWebullClient::get_paper_account_id]: the answer is either the
    array of accounts or an object wrapping it in [data]. *)
Definition get_paper_account_id (p : PaperSession) (resp : HttpOutcome)
    : result string * PaperSession :=
  match response_json resp with
  | Err e => (Err e, p)
  | Ok result =>
      let accounts :=
        match result with
        | JArr xs => Some xs
        | _ => and_then (jget result "data") as_array
        end in
      match accounts with
      | Some (first_account :: _) =>
          match jget first_account "id" with
          | Some v =>
              match id_string v with
              | Ok id => (Ok id, mkPaper (base_client p) (Some id))
              | Err e => (Err e, p)
              end
          | None => (Err AccountNotFound, p)
          end
      | _ => (Err AccountNotFound, p)
      end
  end.

(** [LiveWebullClient::get_account_raw]. *)
Definition get_account_raw (s : LiveSession) (resp : HttpOutcome) : result json :=
  match account_id s with
  | None => Err AccountNotFound
  | Some _ => response_json resp
  end.

Section Login.

(** [serde_json::from_value::<LoginResponse>] and
    [DateTime::parse_from_rfc3339(..).timestamp()]. *)
Variable LoginResponse : Type.
Variable decode_login : json -> option LoginResponse.
Variable parse_rfc3339 : string -> option Z.

(** The [tokenExpireTime] parse: an [i64], else an RFC 3339 date string. *)
Definition token_expire_of (result : json) : option Z :=
  and_then (jget result "tokenExpireTime")
    (fun v => or_else (as_i64 v) (fun _ => and_then (as_str v) parse_rfc3339)).

Definition decode_login_result (v : json) : result LoginResponse :=
  match decode_login v with
  | Some r => Ok r
  | None => Err (JsonError "invalid LoginResponse")
  end.

(** [LiveWebullClient::login]; [resp] answers the login POST and
    [acct_resp] the GET of the [get_account_id] that follows it.  The
    device name, MFA code and security question only shape the request
    and are not modelled. *)
Definition login (s : LiveSession) (username password : string)
    (resp acct_resp : HttpOutcome) : result LoginResponse * LiveSession :=
  if String.eqb username "" || String.eqb password "" then
    (Err (InvalidParameter "Username or password is empty"), s)
  else
    match Utils.get_account_type username with
    | Err e => (Err e, s)
    | Ok _ =>
        match response_json resp with
        | Err e => (Err e, s)
        | Ok result =>
            match and_then (jget result "accessToken") as_str with
            | Some at_ =>
                let s1 := set_uuid (and_then (jget result "uuid") as_str)
                            (set_tokens (Some at_)
                               (and_then (jget result "refreshToken") as_str)
                               (token_expire_of result) s) in
                match get_account_id s1 acct_resp with
                | (Err e, s2) => (Err e, s2)
                | (Ok _, s2) => (decode_login_result result, s2)
                end
            | None => (Err (AuthenticationError "Login failed"), s)
            end
        end
    end.

(** [LiveWebullClient::refresh_login]. *)
Definition refresh_login (s : LiveSession) (resp : HttpOutcome)
    : result LoginResponse * LiveSession :=
  match refresh_token s with
  | None => (Err SessionExpired, s)
  | Some _ =>
      match response_json resp with
      | Err e => (Err e, s)
      | Ok result =>
          match and_then (jget result "accessToken") as_str with
          | Some at_ =>
              (decode_login_result result,
               set_tokens (Some at_) (and_then (jget result "refreshToken") as_str)
                          (token_expire_of result) s)
          | None => (Err SessionExpired, s)
          end
      end
  end.

(** [PaperWebullClient::login]: the live login, then the paper account. *)
Definition paper_login (p : PaperSession) (username password : string)
    (resp acct_resp paper_resp : HttpOutcome) : result LoginResponse * PaperSession :=
  match login (base_client p) username password resp acct_resp with
  | (Err e, b) => (Err e, mkPaper b (paper_account_id p))
  | (Ok r, b) =>
      match get_paper_account_id (mkPaper b (paper_account_id p)) paper_resp with
      | (Err e, p') => (Err e, p')
      | (Ok _, p') => (Ok r, p')
      end
  end.

End Login.

Section LiveOrders.

(** [serde_json::from_value::<Order>] for one element. *)
Variable Order : Type.
Variable decode_order : json -> option Order.

(** [serde_json::from_value::<Vec<Order>>]: an array whose every element
    decodes. *)
Fixpoint decode_orders (xs : list json) : option (list Order) :=
  match xs with
  | [] => Some []
  | x :: rest =>
      match decode_order x with
      | Some o =>
          match decode_orders rest with
          | Some os => Some (o :: os)
          | None => None
          end
      | None => None
      end
  end.

(** [LiveWebullClient::get_orders]. *)
Definition live_get_orders (s : LiveSession) (resp : HttpOutcome) : result (list Order) :=
  match get_account_raw s resp with
  | Err e => Err e
  | Ok account_data =>
      match jget account_data "openOrders" with
      | Some open_orders =>
          match and_then (as_array open_orders) decode_orders with
          | Some orders => Ok orders
          | None => Ok []
          end
      | None => Ok []
      end
  end.

End LiveOrders.

Section Bars.

(** [f64] with [0.0] and [str::parse::<f64>], and [str::parse::<i64>]. *)
Variable f64 : Type.
Variable zero : f64.
Variable parse_f64 : string -> option f64.
Variable parse_i64 : string -> option Z.

(** The [Bar] literal of [get_bars]; the volume is the [i64] the code
    parses. *)
Record Bar : Type := mkBar {
  bar_open : f64;
  bar_high : f64;
  bar_low : f64;
  bar_close : f64;
  bar_volume : Z;
  bar_vwap : f64;
  bar_timestamp : Z
}.

Definition f64_or_zero (o : option f64) : f64 :=
  match o with Some x => x | None => zero end.

Definition i64_or_zero (o : option Z) : Z :=
  match o with Some x => x | None => 0%Z end.

(** One [data] entry: a comma separated row of at least seven fields. *)
Definition parse_bar_row (v : json) : option Bar :=
  match as_str v with
  | Some row =>
      let parts := Utils.split_on ","%char row in
      if Nat.leb 7 (length parts) then
        let part i := nth i parts "" in
        let vwap :=
          if Nat.ltb 7 (length parts) && negb (String.eqb (part 7) "null")
          then f64_or_zero (parse_f64 (part 7)) else zero in
        Some (mkBar (f64_or_zero (parse_f64 (part 1)))
                    (f64_or_zero (parse_f64 (part 3)))
                    (f64_or_zero (parse_f64 (part 4)))
                    (f64_or_zero (parse_f64 (part 2)))
                    (i64_or_zero (parse_i64 (part 6)))
                    vwap
                    (i64_or_zero (parse_i64 (part 0))))
      else None
  | None => None
  end.

(** The [for data_str in data_array] loop. *)
Fixpoint collect_bars (rows : list json) : list Bar :=
  match rows with
  | [] => []
  | r :: rest =>
      match parse_bar_row r with
      | Some b => b :: collect_bars rest
      | None => collect_bars rest
      end
  end.

(** [LiveWebullClient::get_bars]; ticker, count and timestamp only shape
    the URL. *)
Definition get_bars (interval : string) (resp : HttpOutcome) : result (list Bar) :=
  match Utils.parse_interval interval with
  | Err e => Err e
  | Ok _ =>
      match response_json resp with
      | Err e => Err e
      | Ok result =>
          match as_array result with
          | Some (first_item :: _) =>
              match and_then (jget first_item "data") as_array with
              | Some data_array => Ok (collect_bars data_array)
              | None => Ok []
              end
          | _ => Ok []
          end
      end
  end.

End Bars.

Section PaperOrders.

(** What [parse_paper_order] relies on outside the crate: [f64] and its
    [str::parse], the [Ticker] model and its serde decoding, and
    [chrono]'s [DateTime] with [from_timestamp_millis] and [Utc::now()]. *)
Variable f64 : Type.
Variable zero : f64.
Variable parse_f64 : string -> option f64.
Variable Ticker : Type.
Variable decode_ticker : json -> option Ticker.
Variable DateTime : Type.
Variable from_timestamp_millis : Z -> option DateTime.
Variable now : DateTime.

(** The record [parse_paper_order] builds (the [Order { .. }] literal of
    [client.rs]). *)
Record PaperOrder : Type := mkPaperOrder {
  o_order_id : string;
  o_combo_id : option string;
  o_ticker : Ticker;
  o_action : OrderAction;
  o_order_type : OrderType;
  o_status : OrderStatus;
  o_time_in_force : TimeInForce;
  o_quantity : f64;
  o_filled_quantity : f64;
  o_avg_fill_price : option f64;
  o_limit_price : option f64;
  o_stop_price : option f64;
  o_placed_time : DateTime;
  o_filled_time : option DateTime;
  o_outside_regular_trading_hour : bool
}.

Definition get_str (v : json) (k : string) : option string :=
  and_then (jget v k) as_str.

Definition get_f64 (v : json) (k : string) : option f64 :=
  and_then (get_str v k) parse_f64.

Definition unwrap_or {A} (o : option A) (d : A) : A :=
  match o with Some a => a | None => d end.

(** The [action] match of [parse_paper_order]. *)
Definition action_of (s : option string) : option OrderAction :=
  match s with
  | Some s =>
      if String.eqb s "BUY" then Some Buy
      else if String.eqb s "SELL" then Some Sell
      else None
  | None => None
  end.

(** The [order_type] match of [parse_paper_order]. *)
Definition order_type_of (s : option string) : option OrderType :=
  match s with
  | Some s =>
      if String.eqb s "MKT" then Some Market
      else if String.eqb s "LMT" then Some Limit
      else if String.eqb s "STP" then Some Stop
      else if String.eqb s "STP LMT" then Some StopLimit
      else None
  | None => None
  end.

(** The [time_in_force] match of [parse_paper_order]. *)
Definition time_in_force_of (s : option string) : TimeInForce :=
  match s with
  | Some s =>
      if String.eqb s "DAY" then Day
      else if String.eqb s "GTC" then GoodTillCancel
      else if String.eqb s "IOC" then ImmediateOrCancel
      else if String.eqb s "FOK" then FillOrKill
      else Day
  | None => Day
  end.

(** [PaperWebullClient::parse_paper_order]. *)
Definition parse_paper_order (order_val : json) : result PaperOrder :=
  match and_then (jget order_val "orderId") as_i64 with
  | None => Err (ParseError "Missing orderId")
  | Some id =>
  let order_id := pretty id in
  match jget order_val "ticker" with
  | None => Err (ParseError "Missing ticker")
  | Some ticker_data =>
  match decode_ticker ticker_data with
  | None => Err (JsonError "invalid ticker")
  | Some ticker =>
  match action_of (get_str order_val "action") with
  | None => Err (ParseError "Invalid action")
  | Some action =>
  match order_type_of (get_str order_val "orderType") with
  | None => Err (ParseError "Invalid order type")
  | Some order_type =>
      let status := paper_status (get_str order_val "status") in
      let time_in_force := time_in_force_of (get_str order_val "timeInForce") in
      let placed_time :=
        match and_then (jget order_val "createTime0") as_i64 with
        | Some ts => unwrap_or (from_timestamp_millis ts) now
        | None => now
        end in
      let filled_time :=
        match and_then (jget order_val "filledTime0") as_i64 with
        | Some ts => Some (unwrap_or (from_timestamp_millis ts) now)
        | None => None
        end in
      Ok (mkPaperOrder order_id (get_str order_val "comboId") ticker action
            order_type status time_in_force
            (unwrap_or (get_f64 order_val "totalQuantity") zero)
            (unwrap_or (get_f64 order_val "filledQuantity") zero)
            (get_f64 order_val "avgFilledPrice")
            (get_f64 order_val "lmtPrice")
            (get_f64 order_val "auxPrice")
            placed_time filled_time
            (unwrap_or (and_then (jget order_val "outsideRegularTradingHour") as_bool)
               false))
  end end end end end.

(** [get_history_orders]; [resp] is the answer of the GET. *)
Definition get_history_orders (p : PaperSession) (resp : HttpOutcome) : result json :=
  match paper_account_id p with
  | None => Err AccountNotFound
  | Some _ => response_json resp
  end.

(** The [for order_val in orders_array] loop of [get_orders]. *)
Fixpoint collect_working (orders : list json) : list PaperOrder :=
  match orders with
  | [] => []
  | order_val :: rest =>
      match get_str order_val "status" with
      | Some status =>
          if String.eqb status "Working" then
            match parse_paper_order order_val with
            | Ok order => order :: collect_working rest
            | Err _ => collect_working rest
            end
          else collect_working rest
      | None => collect_working rest
      end
  end.

(** [PaperWebullClient::get_orders]: the history is fetched with status
    ["All"]. *)
Definition paper_get_orders (p : PaperSession) (resp : HttpOutcome)
  : result (list PaperOrder) :=
  match get_history_orders p resp with
  | Err e => Err e
  | Ok history =>
      match as_array history with
      | Some orders_array => Ok (collect_working orders_array)
      | None => Ok []
      end
  end.

End PaperOrders.

End Clients.

(* ================================================================== *)
(** * Properties *)

(* ------------------------------------------------------------------ *)
(** ** Streaming engine *)

Module StreamFacts.
Import Stream.

(** A connection whose [connect] has stored an open client. *)
Definition connected_conn : StreamConn :=
  set_client (Some (mkClient "rust_client_0" true)) (new true true).

(** Topic key of the quote channel of one ticker. *)
Definition quote_topic : string := ticker_topic "913256135" 102.

Example quote_topic_text :
  quote_topic = "{" ++ dq ++ "tickerId" ++ dq ++ ":" ++ dq ++ "913256135" ++ dq
                ++ "," ++ dq ++ "type" ++ dq ++ ":102}".
Proof. reflexivity. Qed.

Lemma subscribe_loop_open (c : AsyncClient) (tid : string) (ts : list Z)
    (st : StreamConn) :
  chan_open c = true ->
  subscribe_loop c tid ts st =
    (Ok tt, mkStreamConn (client st) (price_callback st) (order_callback st)
              (total_volume st) (subscriptions st ++ map (ticker_topic tid) ts)
              (is_connected st)
              (requests st ++ map (fun t => Subscribe (ticker_topic tid t)) ts)
              (calls st)).
Proof.
  intros Hopen. revert st.
  induction ts as [|t ts IH]; intros st; simpl.
  - destruct st; simpl. rewrite !app_nil_r. reflexivity.
  - unfold client_send. rewrite Hopen. rewrite IH. simpl.
    rewrite <- !app_assoc. reflexivity.
Qed.

Lemma subscribe_ticker_open (c : AsyncClient) (tid : string) (ts : list Z)
    (st : StreamConn) :
  client st = Some c -> chan_open c = true ->
  subscribe_ticker tid ts st =
    (Ok tt, mkStreamConn (client st) (price_callback st) (order_callback st)
              (total_volume st) (subscriptions st ++ map (ticker_topic tid) ts)
              (is_connected st)
              (requests st ++ map (fun t => Subscribe (ticker_topic tid t)) ts)
              (calls st)).
Proof.
  intros Hc Hopen. unfold subscribe_ticker. rewrite Hc.
  rewrite (subscribe_loop_open c tid ts st Hopen), Hc. reflexivity.
Qed.

Section Loop.
Variable parse_topic : string -> option json.
Variable parse_payload : list Byte.byte -> option json.

Lemma handle_message_frame (pcb ocb : bool) (t : string) (p : list Byte.byte)
    (st : StreamConn) :
  let st' := handle_message parse_topic parse_payload pcb ocb t p st in
  client st' = client st /\ subscriptions st' = subscriptions st /\
  requests st' = requests st.
Proof.
  unfold handle_message.
  destruct (parse_topic t); simpl; [|auto].
  destruct (parse_payload p); simpl; [|auto].
  repeat (case_match; simpl); auto.
Qed.

Lemma loop_step_frame (pcb ocb : bool) (ev : PollEvent) (st : StreamConn) :
  let st' := loop_step parse_topic parse_payload pcb ocb ev st in
  client st' = client st /\ subscriptions st' = subscriptions st /\
  requests st' = requests st.
Proof.
  destruct ev; simpl; auto using handle_message_frame.
Qed.

Lemma run_loop_frame (pcb ocb : bool) (evs : list PollEvent) (st : StreamConn) :
  let st' := run_loop parse_topic parse_payload pcb ocb evs st in
  client st' = client st /\ subscriptions st' = subscriptions st /\
  requests st' = requests st.
Proof.
  revert st. induction evs as [|ev evs IH]; intros st; simpl; [auto|].
  destruct (IH (loop_step parse_topic parse_payload pcb ocb ev st)) as (H1 & H2 & H3).
  destruct (loop_step_frame pcb ocb ev st) as (H4 & H5 & H6).
  rewrite H1, H2, H3, H4, H5, H6. auto.
Qed.

End Loop.

(** Claim C1 (counterexample): after subscribing to a quote topic, a
    transport error (disconnect) and a [ConnAck] (reconnect), the engine is
    connected again but its request queue still holds only the original
    subscribe frame: no subscribe frame is re-issued on reconnect. *)
Lemma reconnect_issues_no_resubscribe :
  let st1 := snd (subscribe_ticker "913256135" [102%Z] connected_conn) in
  let st2 := run_loop (fun _ => None) (fun _ => None) true true
               [EvError; EvConnAck] st1 in
  is_connected st2 = true /\
  requests st1 = [Subscribe quote_topic] /\
  requests st2 = [Subscribe quote_topic] /\
  get_subscriptions st2 = [quote_topic].
Proof. vm_compute. repeat split; reflexivity. Qed.

(** Claim C1 (amended): once [subscribe_ticker] has succeeded for a topic
    [X], [get_subscriptions] reports [X] after every prefix of any sequence
    of event-loop events (transport errors, disconnects, reconnects,
    frames), and the event loop never queues a request of its own, so it
    re-issues no subscribe frame. *)
Theorem subscription_survives_reconnect
    (parse_topic : string -> option json)
    (parse_payload : list Byte.byte -> option json)
    (st : StreamConn) (c : AsyncClient) (tid : string) (ty : Z)
    (pcb ocb : bool) (evs : list PollEvent) :
  client st = Some c -> chan_open c = true ->
  let st1 := snd (subscribe_ticker tid [ty] st) in
  fst (subscribe_ticker tid [ty] st) = Ok tt /\
  (forall n, In (ticker_topic tid ty)
     (get_subscriptions (run_loop parse_topic parse_payload pcb ocb (firstn n evs) st1))) /\
  requests (run_loop parse_topic parse_payload pcb ocb evs st1) = requests st1.
Proof.
  intros Hc Hopen. cbv zeta.
  rewrite (subscribe_ticker_open c tid [ty] st Hc Hopen). simpl.
  split; [reflexivity|split].
  - intros n.
    destruct (run_loop_frame parse_topic parse_payload pcb ocb (firstn n evs)
                (mkStreamConn (client st) (price_callback st) (order_callback st)
                   (total_volume st) (subscriptions st ++ [ticker_topic tid ty])
                   (is_connected st) (requests st ++ [Subscribe (ticker_topic tid ty)])
                   (calls st))) as (_ & Hs & _).
    unfold get_subscriptions. rewrite Hs. simpl.
    apply in_or_app. right. left. reflexivity.
  - apply run_loop_frame.
Qed.

(** Claim C4 (counterexample): calling [subscribe_ticker] twice with the
    same ticker and category leaves the topic key twice in the
    subscription list, which differs from the list after one call. *)
Lemma subscribe_twice_duplicates :
  let st1 := snd (subscribe_ticker "913256135" [102%Z] connected_conn) in
  let st2 := snd (subscribe_ticker "913256135" [102%Z] st1) in
  get_subscriptions st1 = [quote_topic] /\
  get_subscriptions st2 = [quote_topic; quote_topic] /\
  get_subscriptions st2 <> get_subscriptions st1.
Proof. vm_compute. split; [reflexivity|split; [reflexivity|discriminate]]. Qed.

(** Claim C4 (amended): on a connection with an open client, each
    [subscribe_ticker] call succeeds and appends one topic key per category
    to the subscription list without looking for existing entries; a second
    identical call therefore appends the same keys again, and sends the same
    Subscribe requests again, while the set of distinct keys held is the
    same as after the first call. *)
Theorem subscribe_twice_same_keys (st : StreamConn) (c : AsyncClient)
    (tid : string) (ts : list Z) :
  client st = Some c -> chan_open c = true ->
  let st1 := snd (subscribe_ticker tid ts st) in
  let st2 := snd (subscribe_ticker tid ts st1) in
  fst (subscribe_ticker tid ts st) = Ok tt /\
  fst (subscribe_ticker tid ts st1) = Ok tt /\
  get_subscriptions st1 = (get_subscriptions st ++ map (ticker_topic tid) ts)%list /\
  get_subscriptions st2 = (get_subscriptions st1 ++ map (ticker_topic tid) ts)%list /\
  (forall x, In x (get_subscriptions st2) <-> In x (get_subscriptions st1)) /\
  requests st1 = (requests st ++ map (fun t => Subscribe (ticker_topic tid t)) ts)%list /\
  requests st2 = (requests st1 ++ map (fun t => Subscribe (ticker_topic tid t)) ts)%list.
Proof.
  intros Hc Hopen. cbv zeta.
  rewrite (subscribe_ticker_open c tid ts st Hc Hopen). simpl.
  erewrite (subscribe_ticker_open c tid ts _); [simpl|simpl; exact Hc|exact Hopen].
  unfold get_subscriptions. simpl.
  split; [reflexivity|split; [reflexivity|split; [reflexivity|split; [reflexivity|]]]].
  split; [|split; [reflexivity|reflexivity]].
  intros x. rewrite <- app_assoc. split; intros H.
  - apply in_app_or in H as [H|H]; [apply in_or_app; left; exact H|].
    apply in_app_or in H as [H|H]; apply in_or_app; right; exact H.
  - apply in_app_or in H as [H|H]; apply in_or_app; [left; exact H|].
    right. apply in_or_app. left. exact H.
Qed.

(** Claim C10: without a client ([connect] never called),
    [subscribe_ticker], [subscribe_orders], [unsubscribe_ticker] and
    [unsubscribe_all] each return [WebSocketError "Not connected"] and
    leave the connection, hence its subscription list, unchanged. *)
Theorem not_connected_rejects (st : StreamConn) :
  client st = None ->
  (forall tid ts, subscribe_ticker tid ts st = (Err (WebSocketError "Not connected"), st)) /\
  (forall acc, subscribe_orders acc st = (Err (WebSocketError "Not connected"), st)) /\
  (forall tid ts, unsubscribe_ticker tid ts st = (Err (WebSocketError "Not connected"), st)) /\
  unsubscribe_all st = (Err (WebSocketError "Not connected"), st).
Proof.
  intros Hc.
  unfold subscribe_ticker, subscribe_orders, unsubscribe_ticker, unsubscribe_all.
  rewrite Hc. repeat split.
Qed.

Lemma not_connected_rejects_witness :
  client (new true false) = None /\
  unsubscribe_all (new true false) = (Err (WebSocketError "Not connected"), new true false).
Proof.
  split; [reflexivity|].
  apply (not_connected_rejects (new true false)). reflexivity.
Defined.

Lemma subscription_survives_reconnect_witness :
  client connected_conn = Some (mkClient "rust_client_0" true) /\
  In quote_topic
    (get_subscriptions
       (run_loop (fun _ => None) (fun _ => None) true true (firstn 1 [EvError; EvConnAck])
          (snd (subscribe_ticker "913256135" [102%Z] connected_conn)))).
Proof.
  split; [reflexivity|].
  destruct (subscription_survives_reconnect (fun _ => None) (fun _ => None)
              connected_conn (mkClient "rust_client_0" true) "913256135" 102 true true
              [EvError; EvConnAck] eq_refl eq_refl) as (_ & H & _).
  exact (H 1).
Defined.

Lemma subscribe_twice_same_keys_witness :
  client connected_conn = Some (mkClient "rust_client_0" true) /\
  fst (subscribe_ticker "913256135" [102%Z; 103%Z]
         (snd (subscribe_ticker "913256135" [102%Z; 103%Z] connected_conn))) = Ok tt.
Proof.
  split; [reflexivity|].
  destruct (subscribe_twice_same_keys connected_conn (mkClient "rust_client_0" true)
              "913256135" [102%Z; 103%Z] eq_refl eq_refl) as (_ & H & _).
  exact H.
Defined.

(** Claim C8: a frame whose topic or payload does not parse as JSON leaves
    the connection unchanged (no callback invoked, no volume written; the
    function is total, so it cannot panic), the loop then handles the next
    frame exactly as if the malformed one had not arrived, and a well-formed
    next frame reaches the order callback (topic containing [platpush]) or
    the price callback (topic containing [wspush] or [ticker]). *)
Theorem malformed_frame_dropped
    (parse_topic : string -> option json)
    (parse_payload : list Byte.byte -> option json)
    (pcb ocb : bool) (t t' : string) (p p' : list Byte.byte) (st : StreamConn) :
  parse_topic t = None \/ parse_payload p = None ->
  handle_message parse_topic parse_payload pcb ocb t p st = st /\
  run_loop parse_topic parse_payload pcb ocb [EvPublish t p; EvPublish t' p'] st =
    run_loop parse_topic parse_payload pcb ocb [EvPublish t' p'] st /\
  (forall tj pj, parse_topic t' = Some tj -> parse_payload p' = Some pj ->
     (str_contains "platpush" t' = true -> ocb = true ->
        calls (run_loop parse_topic parse_payload pcb ocb
                 [EvPublish t p; EvPublish t' p'] st) = (calls st ++ [OrderCall tj pj])%list) /\
     (str_contains "platpush" t' = false ->
      str_contains "wspush" t' || str_contains "ticker" t' = true -> pcb = true ->
        calls (run_loop parse_topic parse_payload pcb ocb
                 [EvPublish t p; EvPublish t' p'] st) = (calls st ++ [PriceCall tj pj])%list)).
Proof.
  intros Hbad.
  assert (Hdrop : handle_message parse_topic parse_payload pcb ocb t p st = st).
  { unfold handle_message.
    destruct Hbad as [H|H]; rewrite H; [reflexivity|].
    destruct (parse_topic t); reflexivity. }
  split; [exact Hdrop|].
  assert (Hseq : run_loop parse_topic parse_payload pcb ocb [EvPublish t p; EvPublish t' p'] st =
                 run_loop parse_topic parse_payload pcb ocb [EvPublish t' p'] st).
  { simpl. rewrite Hdrop. reflexivity. }
  split; [exact Hseq|].
  intros tj pj Ht Hp. rewrite Hseq. simpl.
  unfold handle_message. rewrite Ht, Hp.
  split.
  - intros Hplat Hocb. rewrite Hplat, Hocb. reflexivity.
  - intros Hplat Hws Hpcb. rewrite Hplat, Hws, Hpcb.
    repeat (case_match; simpl); reflexivity.
Qed.

(** A topic and payload parser on two concrete frames: a malformed
    payload, then an order-stream frame. *)
Definition sample_topic : string := "platpush:secAccountId:12345".
Definition sample_topic_json : json := JObj [("secAccountId", JStr "12345")].
Definition sample_payload_json : json := JObj [("status", JStr "Filled")].

Definition sample_parse_topic (s : string) : option json :=
  if String.eqb s sample_topic then Some sample_topic_json else None.
Definition sample_parse_payload (b : list Byte.byte) : option json :=
  match b with
  | [Byte.x7b; Byte.x7d] => Some sample_payload_json
  | _ => None
  end.

Lemma malformed_frame_dropped_witness :
  sample_parse_payload [Byte.x7b] = None /\
  calls (run_loop sample_parse_topic sample_parse_payload true true
           [EvPublish sample_topic [Byte.x7b]; EvPublish sample_topic [Byte.x7b; Byte.x7d]]
           (new true true)) = [OrderCall sample_topic_json sample_payload_json].
Proof.
  split; [reflexivity|].
  destruct (malformed_frame_dropped sample_parse_topic sample_parse_payload true true
              sample_topic sample_topic [Byte.x7b] [Byte.x7b; Byte.x7d] (new true true)
              (or_intror eq_refl)) as (_ & _ & H).
  destruct (H sample_topic_json sample_payload_json eq_refl eq_refl) as [Hord _].
  exact (Hord eq_refl eq_refl).
Defined.

End StreamFacts.

(* ------------------------------------------------------------------ *)
(** ** Session and order gateway *)

Module ClientFacts.
Import Orders Clients.

(** A live session with every field set. *)
Definition full_session : LiveSession :=
  mkSession (Some "5512345") (Some "tt-1") (Some "at-1") (Some "rt-1")
    (Some 1760000000000%Z) (Some "uuid-1") "did-1".

(** Claim C9 (counterexample): a logout the server answers with status
    500 returns [false] and clears nothing: the access token, trade token
    and account id are all still set. *)
Lemma logout_rejected_keeps_session :
  logout full_session (Response 500 (Some (JObj []))) = (Ok false, full_session) /\
  access_token (snd (logout full_session (Response 500 (Some (JObj []))))) = Some "at-1".
Proof. split; reflexivity. Qed.

(** Claim C9 (amended): [logout] returns [true] and clears every session
    field (access, refresh and trade tokens, account id, expiry, uuid; the
    device id stays) exactly when the server answers with a success status,
    whatever the body; on any other status it returns [false] and leaves
    the session as it was; a transport error is returned as an error, the
    session again unchanged. *)
Theorem logout_clears_on_success (s : LiveSession) (status : Z) (body : option json)
    (msg : string) :
  logout s (Response status body) =
    (if is_success status
     then (Ok true, mkSession None None None None None None (did s))
     else (Ok false, s)) /\
  logout s (SendError msg) = (Err (RequestError msg), s).
Proof. split; reflexivity. Qed.

(** A market order request; prices are modelled as [Z] here. *)
Definition market_order : PlaceOrderRequest Z :=
  mkRequest 913256135 Buy Market Day 1%Z None None false None None.

Definition order_ack : HttpOutcome :=
  Response 200 (Some (JObj [("orderId", JNum 42)])).

(** Claim C3 (counterexample): a paper client with a resolved paper
    account but no trade token places the order: the call returns the new
    order id instead of [TradeTokenNotAvailable]. *)
Lemma paper_place_without_trade_token :
  let p := mkPaper (mkSession None None (Some "at-1") None None None "did-1") (Some "paper-1") in
  trade_token (base_client p) = None /\
  paper_place_order Z p market_order order_ack = Ok "42".
Proof. split; reflexivity. Qed.

(** Claim C3 (amended): the live [place_order] fails with
    [AccountNotFound] when no account is resolved and, once one is, with
    [TradeTokenNotAvailable] when no trade token is held; the paper
    [place_order] fails with [AccountNotFound] when no paper account is
    resolved and does not look at the trade token at all. *)
Theorem place_order_preconditions :
  (forall (s : LiveSession) (o : PlaceOrderRequest Z) (r : HttpOutcome),
     account_id s = None -> live_place_order Z s o r = Err AccountNotFound) /\
  (forall (s : LiveSession) (o : PlaceOrderRequest Z) (r : HttpOutcome) (a : string),
     account_id s = Some a -> trade_token s = None ->
     live_place_order Z s o r = Err TradeTokenNotAvailable) /\
  (forall (p : PaperSession) (o : PlaceOrderRequest Z) (r : HttpOutcome),
     paper_account_id p = None -> paper_place_order Z p o r = Err AccountNotFound) /\
  (forall (b b' : LiveSession) (a : string) (o : PlaceOrderRequest Z) (r : HttpOutcome),
     paper_place_order Z (mkPaper b (Some a)) o r = paper_place_order Z (mkPaper b' (Some a)) o r).
Proof.
  split; [|split; [|split]].
  - intros s o r H. unfold live_place_order. rewrite H. reflexivity.
  - intros s o r a Ha Ht. unfold live_place_order. rewrite Ha, Ht. reflexivity.
  - intros p o r H. unfold paper_place_order. rewrite H. reflexivity.
  - intros b b' a o r. reflexivity.
Qed.

Lemma place_order_preconditions_witness :
  live_place_order Z (mkSession (Some "5512345") None None None None None "did-1")
    market_order order_ack = Err TradeTokenNotAvailable.
Proof.
  destruct place_order_preconditions as (_ & H & _).
  apply (H _ _ _ "5512345"); reflexivity.
Defined.

(** Claim C5 (counterexample): the unrecognized wire status ["Expired"]
    is normalized to [Working] by [parse_paper_order]. *)
Lemma unknown_status_becomes_working :
  paper_status (Some "Expired") = Working.
Proof. reflexivity. Qed.

(** Claim C5 (amended): [parse_paper_order] maps ["Working"], ["Filled"],
    ["Canceled"]/["Cancelled"], ["PartiallyFilled"]/["Partial Filled"],
    ["Pending"] and ["Failed"] onto their [OrderStatus], and falls back to
    [Working] for a missing status and for every string that is none of
    these and not the wire name of an [OrderStatus] variant; the derived
    [OrderStatus] deserializer accepts exactly the eight variant names and
    rejects every other string. *)
Theorem status_normalization (s : string) :
  paper_status (Some "Working") = Working /\
  paper_status (Some "Filled") = Filled /\
  paper_status (Some "Canceled") = Cancelled /\
  paper_status (Some "Cancelled") = Cancelled /\
  paper_status (Some "PartiallyFilled") = PartialFilled /\
  paper_status (Some "Partial Filled") = PartialFilled /\
  paper_status (Some "Pending") = Pending /\
  paper_status (Some "Failed") = Failed /\
  paper_status None = Working /\
  (deserialize_order_status s = None ->
   s <> "Canceled" -> s <> "PartiallyFilled" -> s <> "Partial Filled" ->
   paper_status (Some s) = Working) /\
  (deserialize_order_status s <> None <->
   In s ["Working"; "Pending"; "Submitted"; "PartialFilled"; "Filled";
         "Cancelled"; "Failed"; "Rejected"]).
Proof.
  do 9 (split; [reflexivity|]). split.
  - intros Hnone H1 H2 H3. unfold deserialize_order_status in Hnone.
    unfold paper_status.
    destruct (String.eqb_spec s "Working"); [discriminate|].
    destruct (String.eqb_spec s "Pending"); [discriminate|].
    destruct (String.eqb_spec s "Submitted"); [discriminate|].
    destruct (String.eqb_spec s "PartialFilled"); [discriminate|].
    destruct (String.eqb_spec s "Filled"); [discriminate|].
    destruct (String.eqb_spec s "Cancelled"); [discriminate|].
    destruct (String.eqb_spec s "Failed"); [discriminate|].
    destruct (String.eqb_spec s "Canceled"); [contradiction|].
    destruct (String.eqb_spec s "PartiallyFilled"); [contradiction|].
    destruct (String.eqb_spec s "Partial Filled"); [contradiction|].
    reflexivity.
  - unfold deserialize_order_status. simpl.
    destruct (String.eqb_spec s "Working"); [subst; intuition discriminate|].
    destruct (String.eqb_spec s "Pending"); [subst; intuition discriminate|].
    destruct (String.eqb_spec s "Submitted"); [subst; intuition discriminate|].
    destruct (String.eqb_spec s "PartialFilled"); [subst; intuition discriminate|].
    destruct (String.eqb_spec s "Filled"); [subst; intuition discriminate|].
    destruct (String.eqb_spec s "Cancelled"); [subst; intuition discriminate|].
    destruct (String.eqb_spec s "Failed"); [subst; intuition discriminate|].
    destruct (String.eqb_spec s "Rejected"); [subst; intuition discriminate|].
    split; [intros H; contradiction H; reflexivity|].
    intros H. exfalso.
    repeat (destruct H as [H|H]; [congruence|]). exact H.
Qed.

Lemma status_normalization_witness :
  deserialize_order_status "Expired" = None /\ paper_status (Some "Expired") = Working.
Proof.
  split; [reflexivity|].
  destruct (status_normalization "Expired") as (_ & _ & _ & _ & _ & _ & _ & _ & _ & H & _).
  apply H; [reflexivity|discriminate|discriminate|discriminate].
Defined.

End ClientFacts.

(* ------------------------------------------------------------------ *)
(** ** Order status and order validation *)

Module OrderFacts.
Import Orders Clients ClientFacts.

(** Claim C6 (counterexample): the derived [OrderStatus] deserializer,
    which reads the [status] of an [Order] decoded from JSON (the live
    [get_orders] path), rejects ["Canceled"] while it maps ["Cancelled"] to
    [Cancelled]. *)
Lemma serde_rejects_canceled :
  deserialize_order_status "Cancelled" = Some Cancelled /\
  deserialize_order_status "Canceled" = None.
Proof. split; reflexivity. Qed.

(** Claim C6 (amended): [parse_paper_order] normalizes both ["Canceled"]
    and ["Cancelled"] to [Cancelled]; the derived deserializer accepts
    only ["Cancelled"] for it and rejects ["Canceled"]. *)
Theorem cancelled_spellings :
  paper_status (Some "Canceled") = Cancelled /\
  paper_status (Some "Cancelled") = Cancelled /\
  deserialize_order_status "Cancelled" = Some Cancelled /\
  deserialize_order_status "Canceled" = None.
Proof. repeat split. Qed.

(** Claim C7 (counterexample): the live [place_order] does not validate a
    [PlaceOrderRequest] built directly: a limit order without a limit price
    is sent and its order id returned. *)
Lemma live_place_unvalidated_limit :
  live_place_order Z full_session
    (mkRequest 913256135 Buy Limit Day 1%Z None None false None None)
    order_ack = Ok "42".
Proof. reflexivity. Qed.

Definition is_build_error {f64} (r : BuildResult f64) : bool :=
  match r with BuildError _ => true | Built _ => false end.

(** Claim C7 (amended): both order builders, [PlaceOrderRequestBuilder::build]
    and the fluent [place_order_with] builder, reject a Limit order with no
    limit price, a Stop order with no stop price and a StopLimit order with
    either price missing, and accept a Market order without any price once
    ticker, action and quantity are given; [place_order] itself does not
    repeat the check. *)
Theorem builders_validate_prices (f64 : Type) :
  (forall b : PlaceOrderRequestBuilder f64,
     (b_order_type b = Limit /\ b_limit_price b = None) \/
     (b_order_type b = Stop /\ b_stop_price b = None) \/
     (b_order_type b = StopLimit /\ (b_limit_price b = None \/ b_stop_price b = None)) ->
     is_build_error (build f64 b) = true) /\
  (forall b : PlaceOrderRequestBuilder f64,
     b_order_type b = Market -> b_ticker_id b <> None -> b_action b <> None ->
     b_quantity b <> None -> is_build_error (build f64 b) = false) /\
  (forall f : FluentOrder f64,
     (f_order_type f = Some Limit /\ f_limit_price f = None) \/
     (f_order_type f = Some Stop /\ f_stop_price f = None) \/
     (f_order_type f = Some StopLimit /\ (f_limit_price f = None \/ f_stop_price f = None)) ->
     is_err (fluent_request f64 f) = true) /\
  (forall f : FluentOrder f64,
     f_order_type f = Some Market -> f_ticker_id f <> None -> f_action f <> None ->
     f_quantity f <> None -> is_err (fluent_request f64 f) = false).
Proof.
  split; [|split; [|split]].
  - intros [tid act ot tif q lp sp orth sid ct]; simpl.
    intros H; unfold build; simpl.
    destruct tid, act, q; simpl; try reflexivity.
    destruct H as [[-> ->]|[[-> ->]|[-> [->| ->]]]]; try reflexivity.
    destruct lp; reflexivity.
  - intros [tid act ot tif q lp sp orth sid ct]; simpl.
    intros -> Ht Ha Hq; unfold build; simpl.
    destruct tid; [|congruence]. destruct act; [|congruence].
    destruct q; [|congruence]. reflexivity.
  - intros [tid act ot tif q lp sp orth sid ct]; simpl.
    intros H; unfold fluent_request; simpl.
    destruct tid, act, q; simpl; try reflexivity.
    destruct H as [[-> ->]|[[-> ->]|[-> [->| ->]]]]; try reflexivity.
    destruct lp; reflexivity.
  - intros [tid act ot tif q lp sp orth sid ct]; simpl.
    intros -> Ht Ha Hq; unfold fluent_request; simpl.
    destruct tid; [|congruence]. destruct act; [|congruence].
    destruct q; [|congruence]. reflexivity.
Qed.

Lemma builders_validate_prices_witness :
  is_build_error (build Z (mkBuilder (Some 913256135%Z) (Some Buy) Stop Day
                             (Some 1%Z) None None false None None)) = true.
Proof.
  destruct (builders_validate_prices Z) as (H & _).
  apply H. right. left. split; reflexivity.
Defined.

End OrderFacts.

(* ------------------------------------------------------------------ *)
(** ** Open orders of a paper account *)

Module PaperFacts.
Import Orders Clients.

Section Open.
Variable f64 : Type.
Variable zero : f64.
Variable parse_f64 : string -> option f64.
Variable Ticker : Type.
Variable decode_ticker : json -> option Ticker.
Variable DateTime : Type.
Variable from_timestamp_millis : Z -> option DateTime.
Variable now : DateTime.

Abbreviation parse := (parse_paper_order f64 zero parse_f64 Ticker decode_ticker
                     DateTime from_timestamp_millis now).
Abbreviation collect := (collect_working f64 zero parse_f64 Ticker decode_ticker
                       DateTime from_timestamp_millis now).
Abbreviation get_orders := (paper_get_orders f64 zero parse_f64 Ticker decode_ticker
                          DateTime from_timestamp_millis now).

Definition is_ok {A} (r : result A) : bool :=
  match r with Ok _ => true | Err _ => false end.

Lemma parse_paper_order_status (v : json) o :
  parse v = Ok o -> o_status f64 Ticker DateTime o = paper_status (get_str v "status").
Proof.
  unfold parse_paper_order. intros Hok.
  repeat (case_match; try discriminate).
  all: injection Hok as <-; reflexivity.
Qed.

Lemma collect_working_spec (xs : list json) o :
  In o (collect xs) <->
  exists v, In v xs /\ get_str v "status" = Some "Working" /\ parse v = Ok o.
Proof.
  induction xs as [|v xs IH]; simpl.
  - split; [intros []|intros (v & [] & _)].
  - destruct (get_str v "status") as [st|] eqn:Hst.
    + destruct (String.eqb_spec st "Working") as [->|Hne].
      * destruct (parse v) as [o'|e] eqn:Hp; simpl.
        -- rewrite IH. split.
           ++ intros [<-|(w & Hw & Hws & Hwp)]; [exists v; auto|exists w; auto].
           ++ intros (w & [<-|Hw] & Hws & Hwp); [left; congruence|right; exists w; auto].
        -- rewrite IH. split.
           ++ intros (w & Hw & Hws & Hwp). exists w; auto.
           ++ intros (w & [<-|Hw] & Hws & Hwp); [congruence|exists w; auto].
      * rewrite IH. split.
        -- intros (w & Hw & Hws & Hwp). exists w; auto.
        -- intros (w & [<-|Hw] & Hws & Hwp); [congruence|exists w; auto].
    + rewrite IH. split.
      * intros (w & Hw & Hws & Hwp). exists w; auto.
      * intros (w & [<-|Hw] & Hws & Hwp); [congruence|exists w; auto].
Qed.

Lemma collect_working_all_parse (xs : list json) :
  Forall (fun v => get_str v "status" = Some "Working" /\ is_ok (parse v) = true) xs ->
  length (collect xs) = length xs.
Proof.
  induction xs as [|v xs IH]; simpl; [reflexivity|].
  intros Hall. inversion Hall as [|? ? [Hs Hp] Hrest]; subst.
  rewrite Hs. simpl. destruct (parse v); [|discriminate].
  simpl. f_equal. apply IH. exact Hrest.
Qed.

(** Claim C2 (amended): for a paper account, [get_orders] returns, in
    history order, exactly the orders of the fetched history whose wire
    status is ["Working"] and that [parse_paper_order] accepts (integer
    [orderId], decodable [ticker], known [action] and [orderType]); each has
    status [Working]; Working orders that fail to parse are left out, so a
    history whose Working orders all parse yields all of them (three
    Working orders give exactly three), and a history that is not an array
    yields no order. *)
Theorem paper_open_orders (p : PaperSession) (a : string) (code : Z) (xs : list json)
    (other : json) :
  paper_account_id p = Some a ->
  get_orders p (Response code (Some (JArr xs))) = Ok (collect xs) /\
  (forall o, In o (collect xs) <->
     exists v, In v xs /\ get_str v "status" = Some "Working" /\ parse v = Ok o) /\
  Forall (fun o => o_status f64 Ticker DateTime o = Working) (collect xs) /\
  (Forall (fun v => get_str v "status" = Some "Working" /\ is_ok (parse v) = true) xs ->
   length (collect xs) = length xs) /\
  (as_array other = None -> get_orders p (Response code (Some other)) = Ok []).
Proof.
  intros Hp.
  split; [unfold paper_get_orders, get_history_orders; rewrite Hp; reflexivity|].
  split; [apply collect_working_spec|].
  split.
  - apply List.Forall_forall. intros o Ho.
    apply collect_working_spec in Ho as (v & _ & Hs & Hv).
    rewrite (parse_paper_order_status v o Hv), Hs. reflexivity.
  - split; [apply collect_working_all_parse|].
    intros Hna. unfold paper_get_orders, get_history_orders. rewrite Hp.
    simpl. rewrite Hna. reflexivity.
Qed.

End Open.

(** A concrete instance of the external pieces: prices and timestamps as
    [Z], tickers as [unit]. *)
Definition z_get_orders :=
  paper_get_orders Z 0%Z (fun _ => None) unit (fun _ => Some tt) Z (fun z => Some z) 0%Z.

Definition history_order (id : json) (status : string) : json :=
  JObj [("orderId", id); ("ticker", JObj [("tickerId", JNum 913256135)]);
        ("action", JStr "BUY"); ("orderType", JStr "LMT");
        ("status", JStr status); ("timeInForce", JStr "DAY")].

Definition paper_acct : PaperSession :=
  mkPaper (mkSession None (Some "tt-1") (Some "at-1") None None None "did-1") (Some "paper-1").

(** Claim C2 (counterexample): a Working order whose [orderId] is
    delivered as a string is dropped: the history holds one Working order
    and [get_orders] returns none. *)
Lemma working_order_dropped :
  z_get_orders paper_acct
    (Response 200 (Some (JArr [history_order (JStr "7001") "Working"]))) = Ok [].
Proof. reflexivity. Qed.

Lemma paper_open_orders_witness :
  Forall (fun o => o_status Z unit Z o = Working)
    (collect_working Z 0%Z (fun _ => None) unit (fun _ => Some tt) Z (fun z => Some z) 0%Z
       [history_order (JNum 1) "Working"; history_order (JNum 2) "Filled";
        history_order (JNum 3) "Working"; history_order (JNum 4) "Working"]) /\
  length (collect_working Z 0%Z (fun _ => None) unit (fun _ => Some tt) Z (fun z => Some z) 0%Z
       [history_order (JNum 1) "Working"; history_order (JNum 3) "Working";
        history_order (JNum 4) "Working"]) = 3%nat.
Proof.
  split.
  - destruct (paper_open_orders Z 0%Z (fun _ => None) unit (fun _ => Some tt) Z
                (fun z => Some z) 0%Z paper_acct "paper-1" 200
                [history_order (JNum 1) "Working"; history_order (JNum 2) "Filled";
                 history_order (JNum 3) "Working"; history_order (JNum 4) "Working"]
                JNull eq_refl) as (_ & _ & H & _).
    exact H.
  - destruct (paper_open_orders Z 0%Z (fun _ => None) unit (fun _ => Some tt) Z
                (fun z => Some z) 0%Z paper_acct "paper-1" 200
                [history_order (JNum 1) "Working"; history_order (JNum 3) "Working";
                 history_order (JNum 4) "Working"]
                JNull eq_refl) as (_ & _ & _ & H & _).
    apply H. repeat constructor.
Defined.

End PaperFacts.

(* ------------------------------------------------------------------ *)
(** ** Further properties of the streaming engine *)

Module StreamExtra.
Import Stream.

(** The connection flag as the event loop leaves it after [window]:
    the last [ConnAck] / [Disconnect] / transport error decides, and the
    flag held before the window stands when there is none. *)
Fixpoint last_status (window : list PollEvent) (flag : bool) : bool :=
  match window with
  | [] => flag
  | EvConnAck :: rest => last_status rest true
  | EvDisconnect :: rest => last_status rest false
  | EvError :: rest => last_status rest false
  | _ :: rest => last_status rest flag
  end.

(** The [filter] of the model (stdpp's, on [Is_true] of a boolean test)
    is the Standard Library's boolean [filter]. *)
Lemma filter_bool {A} (f : A -> bool) (l : list A) :
  filter (fun x => f x) l = List.filter f l.
Proof.
  induction l as [|x l IH]; [reflexivity|].
  cbn [List.filter]. rewrite <- IH.
  destruct (f x) eqn:E.
  - rewrite filter_cons_True; [reflexivity|rewrite E; exact I].
  - rewrite filter_cons_False; [reflexivity|rewrite E; intros []].
Qed.

Lemma filter_filter_and {A} (p q : A -> bool) (l : list A) :
  List.filter p (List.filter q l) = List.filter (fun x => q x && p x) l.
Proof.
  induction l as [|x l IH]; simpl; [reflexivity|].
  destruct (q x); simpl; [destruct (p x); simpl; rewrite IH|rewrite IH]; reflexivity.
Qed.

Lemma filter_same {A} (p q : A -> bool) (l : list A) :
  (forall x, p x = q x) -> List.filter p l = List.filter q l.
Proof.
  intros H. induction l as [|x l IH]; simpl; [reflexivity|].
  rewrite H, IH. reflexivity.
Qed.

Lemma filter_all_true {A} (p : A -> bool) (l : list A) :
  (forall x, In x l -> p x = true) -> List.filter p l = l.
Proof.
  induction l as [|x l IH]; intros H; simpl; [reflexivity|].
  rewrite (H x (or_introl eq_refl)), IH; [reflexivity|].
  intros y Hy. apply H. right. exact Hy.
Qed.

Lemma filter_all_false {A} (p : A -> bool) (l : list A) :
  (forall x, In x l -> p x = false) -> List.filter p l = [].
Proof.
  induction l as [|x l IH]; intros H; simpl; [reflexivity|].
  rewrite (H x (or_introl eq_refl)). apply IH.
  intros y Hy. apply H. right. exact Hy.
Qed.

Lemma existsb_eqb_in (x : string) (l : list string) :
  existsb (String.eqb x) l = true <-> In x l.
Proof.
  rewrite existsb_exists. split.
  - intros (y & Hy & Heq). apply String.eqb_eq in Heq. subst y. exact Hy.
  - intros Hx. exists x. split; [exact Hx|apply String.eqb_refl].
Qed.

(** Keeps the entries that are none of [keys]. *)
Definition drop_keys (keys : list string) (l : list string) : list string :=
  List.filter (fun x => negb (existsb (String.eqb x) keys)) l.

Lemma unsubscribe_loop_open (c : AsyncClient) (tid : string) (ts : list Z)
    (st : StreamConn) :
  chan_open c = true ->
  unsubscribe_loop c tid ts st =
    (Ok tt, mkStreamConn (client st) (price_callback st) (order_callback st)
              (total_volume st)
              (drop_keys (map (ticker_topic tid) ts) (subscriptions st))
              (is_connected st)
              (requests st ++ map (fun t => Unsubscribe (ticker_topic tid t)) ts)
              (calls st)).
Proof.
  intros Hopen. revert st. unfold drop_keys.
  induction ts as [|t ts IH]; intros st; simpl.
  - destruct st; simpl. rewrite app_nil_r.
    f_equal. f_equal. symmetry. apply filter_all_true. reflexivity.
  - unfold client_send. rewrite Hopen. rewrite IH. simpl.
    rewrite <- app_assoc, filter_bool, filter_filter_and.
    do 2 f_equal. apply filter_same. intros x. simpl.
    destruct (x =? ticker_topic tid t); reflexivity.
Qed.

Lemma unsubscribe_each_open (c : AsyncClient) (l : list string) (st : StreamConn) :
  chan_open c = true ->
  unsubscribe_each c l st =
    (Ok tt, mkStreamConn (client st) (price_callback st) (order_callback st)
              (total_volume st) (subscriptions st) (is_connected st)
              (requests st ++ map Unsubscribe l) (calls st)).
Proof.
  intros Hopen. revert st.
  induction l as [|t l IH]; intros st; simpl.
  - destruct st; simpl. rewrite app_nil_r. reflexivity.
  - unfold client_send. rewrite Hopen, IH. simpl. rewrite <- app_assoc. reflexivity.
Qed.

Lemma unsubscribe_all_open (c : AsyncClient) (st : StreamConn) :
  client st = Some c -> chan_open c = true ->
  unsubscribe_all st =
    (Ok tt, mkStreamConn (client st) (price_callback st) (order_callback st)
              (total_volume st) [] (is_connected st)
              (requests st ++ map Unsubscribe (subscriptions st)) (calls st)).
Proof.
  intros Hc Hopen. unfold unsubscribe_all. rewrite Hc.
  rewrite (unsubscribe_each_open c _ st Hopen). unfold set_subscriptions.
  simpl. rewrite Hc. reflexivity.
Qed.

Lemma handle_message_connected (parse_topic : string -> option json)
    (parse_payload : list Byte.byte -> option json) (pcb ocb : bool)
    (t : string) (p : list Byte.byte) (st : StreamConn) :
  is_connected (handle_message parse_topic parse_payload pcb ocb t p st) = is_connected st.
Proof.
  unfold handle_message.
  destruct (parse_topic t); simpl; [|reflexivity].
  destruct (parse_payload p); simpl; [|reflexivity].
  repeat (case_match; simpl); reflexivity.
Qed.

Lemma run_loop_connected (parse_topic : string -> option json)
    (parse_payload : list Byte.byte -> option json) (pcb ocb : bool)
    (window : list PollEvent) (st : StreamConn) :
  is_connected (run_loop parse_topic parse_payload pcb ocb window st) =
  last_status window (is_connected st).
Proof.
  revert st. induction window as [|ev window IH]; intros st; simpl; [reflexivity|].
  rewrite IH. destruct ev; simpl; try reflexivity.
  rewrite handle_message_connected. reflexivity.
Qed.

Lemma filter_app_list {A} (p : A -> bool) (l1 l2 : list A) :
  List.filter p (l1 ++ l2) = (List.filter p l1 ++ List.filter p l2)%list.
Proof.
  induction l1 as [|x l1 IH]; simpl; [reflexivity|].
  destruct (p x); simpl; rewrite IH; reflexivity.
Qed.

(** A quote frame fixture: topic and payload decoders that know one frame
    each. *)
Definition quote_frame_topic : string := "wspush:tickerId:913256135".
Definition quote_parse_topic (tid : json) (s : string) : option json :=
  if String.eqb s quote_frame_topic then Some (JObj [("tickerId", tid)]) else None.
Definition quote_parse_payload (b : list Byte.byte) : option json :=
  match b with
  | [Byte.x7b; Byte.x7d] => Some (JObj [("volume", JNum 1500)])
  | _ => None
  end.
Definition order_frame_topic : string := "platpush:ticker:913256135".
Definition quote_topic_of (tid : string) : string := ticker_topic tid 102.

(** X1: with an open client, [unsubscribe_ticker] succeeds, queues one
    unsubscribe request per category in order, and removes from the
    subscription list every occurrence (duplicates included) of the keys
    it unsubscribes while keeping the other entries in their order. *)
Theorem unsubscribe_ticker_drops_every_copy (st : StreamConn) (c : AsyncClient)
    (tid : string) (ts : list Z) :
  client st = Some c -> chan_open c = true ->
  let st' := snd (unsubscribe_ticker tid ts st) in
  fst (unsubscribe_ticker tid ts st) = Ok tt /\
  requests st' = (requests st ++ map (fun t => Unsubscribe (ticker_topic tid t)) ts)%list /\
  (forall x, In x (get_subscriptions st') <->
             In x (get_subscriptions st) /\ ~ In x (map (ticker_topic tid) ts)) /\
  get_subscriptions st' = drop_keys (map (ticker_topic tid) ts) (get_subscriptions st).
Proof.
  intros Hc Hopen. cbv zeta. unfold unsubscribe_ticker. rewrite Hc.
  rewrite (unsubscribe_loop_open c tid ts st Hopen). simpl.
  split; [reflexivity|split; [reflexivity|split; [|reflexivity]]].
  intros x. unfold get_subscriptions, drop_keys. rewrite List.filter_In.
  pose proof (existsb_eqb_in x (map (ticker_topic tid) ts)) as Hin.
  destruct (existsb (String.eqb x) _); simpl.
  - split; [intros [_ H]; discriminate|intros [_ H]; exfalso; apply H, Hin; reflexivity].
  - split; intros [H1 H2]; split; auto.
    intros H. apply Hin in H. discriminate.
Qed.

Lemma unsubscribe_ticker_drops_every_copy_witness :
  let st := set_subscriptions [quote_topic_of "1"; "other"; quote_topic_of "1"]
              (set_client (Some (mkClient "c" true)) (new true true)) in
  client st = Some (mkClient "c" true) /\ chan_open (mkClient "c" true) = true /\
  get_subscriptions (snd (unsubscribe_ticker "1" [102%Z] st)) = ["other"].
Proof.
  cbv zeta. split; [reflexivity|split; [reflexivity|]].
  destruct (unsubscribe_ticker_drops_every_copy
              (set_subscriptions [quote_topic_of "1"; "other"; quote_topic_of "1"]
                 (set_client (Some (mkClient "c" true)) (new true true)))
              (mkClient "c" true) "1" [102%Z] eq_refl eq_refl) as (_ & _ & _ & H).
  rewrite H. vm_compute. reflexivity.
Defined.

(** X2: on a connection with an open client, subscribing to a ticker's
    categories and then unsubscribing from the same categories succeeds,
    the transport has seen the subscribe requests followed by the
    unsubscribe requests, and the subscription list comes back to what it
    was exactly when none of those topic keys was held before (a key held
    before is dropped by the unsubscribe, with all its copies). *)
Theorem subscribe_then_unsubscribe_restores (st : StreamConn) (c : AsyncClient)
    (tid : string) (ts : list Z) :
  client st = Some c -> chan_open c = true ->
  let st1 := snd (subscribe_ticker tid ts st) in
  let st2 := snd (unsubscribe_ticker tid ts st1) in
  fst (unsubscribe_ticker tid ts st1) = Ok tt /\
  requests st2 = (requests st ++ map (fun t => Subscribe (ticker_topic tid t)) ts
                  ++ map (fun t => Unsubscribe (ticker_topic tid t)) ts)%list /\
  (get_subscriptions st2 = get_subscriptions st <->
   (forall t, In t ts -> ~ In (ticker_topic tid t) (get_subscriptions st))).
Proof.
  intros Hc Hopen. cbv zeta.
  rewrite (StreamFacts.subscribe_ticker_open c tid ts st Hc Hopen). simpl.
  unfold unsubscribe_ticker. simpl. rewrite Hc.
  rewrite unsubscribe_loop_open by exact Hopen. simpl.
  split; [reflexivity|split; [rewrite app_assoc; reflexivity|]].
  unfold get_subscriptions, drop_keys. rewrite filter_app_list.
  rewrite (filter_all_false _ (map _ ts)), app_nil_r.
  2: { intros x Hx. apply Bool.negb_false_iff, existsb_eqb_in. exact Hx. }
  split.
  - intros Heq t Ht Hin. rewrite <- Heq in Hin.
    apply filter_In in Hin as [_ Hn]. apply Bool.negb_true_iff in Hn.
    assert (Hk : existsb (String.eqb (ticker_topic tid t)) (map (ticker_topic tid) ts) = true).
    { apply existsb_eqb_in, in_map_iff. exists t. split; [reflexivity|exact Ht]. }
    congruence.
  - intros Hfresh. apply filter_all_true. intros x Hx.
    destruct (existsb (String.eqb x) (map (ticker_topic tid) ts)) eqn:E; [|reflexivity].
    apply existsb_eqb_in, in_map_iff in E. destruct E as (t & <- & Ht).
    exfalso. exact (Hfresh t Ht Hx).
Qed.

Lemma subscribe_then_unsubscribe_restores_witness :
  let st := set_subscriptions ["other"]
              (set_client (Some (mkClient "c" true)) (new true true)) in
  client st = Some (mkClient "c" true) /\ chan_open (mkClient "c" true) = true /\
  (forall t, In t [102%Z; 103%Z] -> ~ In (ticker_topic "1" t) (get_subscriptions st)) /\
  get_subscriptions (snd (unsubscribe_ticker "1" [102%Z; 103%Z]
                            (snd (subscribe_ticker "1" [102%Z; 103%Z] st)))) = ["other"].
Proof.
  cbv zeta.
  assert (Hf : forall t, In t [102%Z; 103%Z] ->
            ~ In (ticker_topic "1" t)
                 (get_subscriptions (set_subscriptions ["other"]
                    (set_client (Some (mkClient "c" true)) (new true true))))).
  { intros t [<-|[<-|[]]]; vm_compute; intros [H|[]]; discriminate H. }
  split; [reflexivity|split; [reflexivity|split; [exact Hf|]]].
  destruct (subscribe_then_unsubscribe_restores
              (set_subscriptions ["other"] (set_client (Some (mkClient "c" true)) (new true true)))
              (mkClient "c" true) "1" [102%Z; 103%Z] eq_refl eq_refl) as (_ & _ & H).
  exact (proj2 H Hf).
Defined.

(** X3: with an open client, [unsubscribe_all] succeeds, queues one
    unsubscribe request per entry of the subscription list (duplicates
    included, in list order), and leaves the list empty; the client, the
    connection flag and the volumes are untouched. *)
Theorem unsubscribe_all_open_clears (st : StreamConn) (c : AsyncClient) :
  client st = Some c -> chan_open c = true ->
  let st' := snd (unsubscribe_all st) in
  fst (unsubscribe_all st) = Ok tt /\ get_subscriptions st' = [] /\
  requests st' = (requests st ++ map Unsubscribe (get_subscriptions st))%list /\
  client st' = Some c /\ is_connected st' = is_connected st /\
  total_volume st' = total_volume st.
Proof.
  intros Hc Hopen. cbv zeta. rewrite (unsubscribe_all_open c st Hc Hopen). simpl.
  repeat split; auto.
Qed.

Lemma unsubscribe_all_open_clears_witness :
  let st := set_subscriptions ["a"; "b"; "a"]
              (set_client (Some (mkClient "c" true)) (new true true)) in
  client st = Some (mkClient "c" true) /\
  requests (snd (unsubscribe_all st)) = [Unsubscribe "a"; Unsubscribe "b"; Unsubscribe "a"].
Proof.
  cbv zeta. split; [reflexivity|].
  destruct (unsubscribe_all_open_clears
              (set_subscriptions ["a"; "b"; "a"]
                 (set_client (Some (mkClient "c" true)) (new true true)))
              (mkClient "c" true) eq_refl eq_refl) as (_ & _ & H & _).
  rewrite H. reflexivity.
Defined.

(** X4: with an open client, [disconnect] succeeds; it first unsubscribes
    every held topic, then sends the disconnect request, and leaves no
    client, an empty subscription list and the connected flag off, so a
    later [subscribe_ticker] fails with [WebSocketError "Not connected"].
    The callbacks, volumes and callback log are kept. *)
Theorem disconnect_releases_client (st : StreamConn) (c : AsyncClient) :
  client st = Some c -> chan_open c = true ->
  disconnect st =
    (Ok tt, mkStreamConn None (price_callback st) (order_callback st)
              (total_volume st) [] false
              (requests st ++ map Unsubscribe (subscriptions st) ++ [Disconnect])
              (calls st)) /\
  (forall tid ts, fst (subscribe_ticker tid ts (snd (disconnect st))) =
                  Err (WebSocketError "Not connected")).
Proof.
  intros Hc Hopen.
  assert (H : disconnect st =
    (Ok tt, mkStreamConn None (price_callback st) (order_callback st)
              (total_volume st) [] false
              (requests st ++ map Unsubscribe (subscriptions st) ++ [Disconnect])
              (calls st))).
  { unfold disconnect. rewrite Hc, (unsubscribe_all_open c st Hc Hopen). simpl.
    rewrite Hc. unfold client_send. rewrite Hopen. simpl.
    unfold push_request, set_client. simpl. rewrite <- app_assoc. reflexivity. }
  split; [exact H|]. intros tid ts. rewrite H. reflexivity.
Qed.

Lemma disconnect_releases_client_witness :
  let st := set_subscriptions ["a"] (set_client (Some (mkClient "c" true)) (new true true)) in
  client st = Some (mkClient "c" true) /\
  requests (snd (disconnect st)) = [Unsubscribe "a"; Disconnect].
Proof.
  cbv zeta. split; [reflexivity|].
  destruct (disconnect_releases_client
              (set_subscriptions ["a"] (set_client (Some (mkClient "c" true)) (new true true)))
              (mkClient "c" true) eq_refl eq_refl) as [H _].
  rewrite H. reflexivity.
Defined.

(** X5: [disconnect] on a connection without a client is a successful
    no-op, although [unsubscribe_all], which it would otherwise call,
    fails there with [WebSocketError "Not connected"]. *)
Theorem disconnect_without_client_noop (st : StreamConn) :
  client st = None ->
  disconnect st = (Ok tt, st) /\
  fst (unsubscribe_all st) = Err (WebSocketError "Not connected").
Proof.
  intros Hc. unfold disconnect, unsubscribe_all. rewrite Hc. split; reflexivity.
Qed.

Lemma disconnect_without_client_noop_witness :
  client (new false false) = None /\ disconnect (new false false) = (Ok tt, new false false).
Proof.
  split; [reflexivity|].
  apply (disconnect_without_client_noop (new false false)). reflexivity.
Defined.

(** X6: when the client's request channel is closed, [disconnect] returns
    an [MqttError].  If topics are held, the failing unsubscribe stops it
    before anything changes: the client and the subscription list stay.
    If none is held, the client has already been taken out when the
    disconnect request fails: the connection is left without a client but
    with its connected flag as it was. *)
Theorem disconnect_closed_channel (st : StreamConn) (c : AsyncClient) :
  client st = Some c -> chan_open c = false ->
  (subscriptions st <> [] ->
   disconnect st = (Err (MqttError client_error_text), st)) /\
  (subscriptions st = [] ->
   disconnect st = (Err (MqttError client_error_text), set_client None st) /\
   is_connected (snd (disconnect st)) = is_connected st).
Proof.
  intros Hc Hclosed. unfold disconnect, unsubscribe_all. rewrite Hc. split.
  - intros Hne. destruct (subscriptions st) as [|t ts] eqn:Hs; [contradiction|].
    simpl. unfold client_send. rewrite Hclosed. reflexivity.
  - intros He. rewrite He. simpl. unfold set_subscriptions. simpl. rewrite Hc.
    unfold client_send. rewrite Hclosed.
    destruct st; simpl in *; subst; split; reflexivity.
Qed.

Lemma disconnect_closed_channel_witness :
  let st := set_connected true (set_client (Some (mkClient "c" false)) (new true true)) in
  client st = Some (mkClient "c" false) /\
  client (snd (disconnect st)) = None /\ is_connected (snd (disconnect st)) = true /\
  is_err (fst (disconnect st)) = true.
Proof.
  cbv zeta.
  destruct (disconnect_closed_channel
              (set_connected true (set_client (Some (mkClient "c" false)) (new true true)))
              (mkClient "c" false) eq_refl eq_refl) as [_ H].
  destruct (H eq_refl) as [Hd Hf].
  rewrite Hd. split; [reflexivity|split; [reflexivity|split; [|reflexivity]]].
  reflexivity.
Defined.

(** X7: a price frame (topic containing [wspush] or [ticker] but not
    [platpush]) whose topic carries a string [tickerId] and whose payload
    carries an [i64] [volume] makes [get_total_volume] of that ticker
    return that volume, whatever it held before (last frame wins), and
    leaves the volumes of the other tickers unchanged. *)
Theorem price_frame_sets_volume (parse_topic : string -> option json)
    (parse_payload : list Byte.byte -> option json) (pcb ocb : bool)
    (topic : string) (payload : list Byte.byte) (st : StreamConn)
    (tj pj : json) (tid : string) (v : Z) :
  parse_topic topic = Some tj -> parse_payload payload = Some pj ->
  str_contains "platpush" topic = false ->
  str_contains "wspush" topic || str_contains "ticker" topic = true ->
  and_then (jget tj "tickerId") as_str = Some tid ->
  and_then (jget pj "volume") as_i64 = Some v ->
  let st' := handle_message parse_topic parse_payload pcb ocb topic payload st in
  get_total_volume tid st' = Some v /\
  (forall t, t <> tid -> get_total_volume t st' = get_total_volume t st).
Proof.
  intros Ht Hp Hplat Hprice Htid Hv. cbv zeta.
  unfold handle_message. rewrite Ht, Hp, Hplat, Hprice, Htid, Hv.
  unfold get_total_volume.
  split; [|intros t Hne]; destruct pcb; simpl.
  all: try (rewrite lookup_insert_ne by congruence; reflexivity).
  all: apply lookup_insert_Some; left; split; reflexivity.
Qed.

Lemma price_frame_sets_volume_witness :
  get_total_volume "913256135"
    (handle_message (quote_parse_topic (JStr "913256135")) quote_parse_payload true true
       quote_frame_topic [Byte.x7b; Byte.x7d]
       (set_volume (<["913256135" := 7%Z]> ∅) (new true true))) = Some 1500%Z.
Proof.
  destruct (price_frame_sets_volume (quote_parse_topic (JStr "913256135"))
              quote_parse_payload true true quote_frame_topic [Byte.x7b; Byte.x7d]
              (set_volume (<["913256135" := 7%Z]> ∅) (new true true))
              (JObj [("tickerId", JStr "913256135")]) (JObj [("volume", JNum 1500)])
              "913256135" 1500%Z)
    as [H _]; [reflexivity .. | exact H].
Defined.

(** X8: a frame whose topic contains [platpush] never changes the
    recorded volumes, even when its topic also contains [ticker]; it at
    most invokes the order callback, never the price callback. *)
Theorem order_frame_keeps_volume (parse_topic : string -> option json)
    (parse_payload : list Byte.byte -> option json) (pcb ocb : bool)
    (topic : string) (payload : list Byte.byte) (st : StreamConn) :
  str_contains "platpush" topic = true ->
  let st' := handle_message parse_topic parse_payload pcb ocb topic payload st in
  total_volume st' = total_volume st /\
  (calls st' = calls st \/ exists tj pj, calls st' = (calls st ++ [OrderCall tj pj])%list).
Proof.
  intros Hplat. cbv zeta. unfold handle_message.
  destruct (parse_topic topic) as [tj|]; [|auto].
  destruct (parse_payload payload) as [pj|]; [|auto].
  rewrite Hplat. destruct ocb; simpl; [|auto].
  split; [reflexivity|right; exists tj, pj; reflexivity].
Qed.

Lemma order_frame_keeps_volume_witness :
  str_contains "platpush" order_frame_topic = true /\
  total_volume (handle_message (fun _ => Some (JObj [("tickerId", JStr "1")]))
                  quote_parse_payload true true order_frame_topic [Byte.x7b; Byte.x7d]
                  (new true true)) = ∅.
Proof.
  split; [reflexivity|].
  apply (order_frame_keeps_volume (fun _ => Some (JObj [("tickerId", JStr "1")]))
           quote_parse_payload true true order_frame_topic [Byte.x7b; Byte.x7d]
           (new true true)).
  reflexivity.
Defined.

(** X9: a price frame whose [tickerId] is a JSON number rather than a
    string records no volume at all, yet the price callback is still
    invoked with the frame. *)
Theorem numeric_ticker_id_not_recorded (parse_topic : string -> option json)
    (parse_payload : list Byte.byte -> option json) (ocb : bool)
    (topic : string) (payload : list Byte.byte) (st : StreamConn)
    (tj pj : json) (n : Z) :
  parse_topic topic = Some tj -> parse_payload payload = Some pj ->
  str_contains "platpush" topic = false ->
  str_contains "wspush" topic || str_contains "ticker" topic = true ->
  jget tj "tickerId" = Some (JNum n) ->
  let st' := handle_message parse_topic parse_payload true ocb topic payload st in
  total_volume st' = total_volume st /\
  calls st' = (calls st ++ [PriceCall tj pj])%list.
Proof.
  intros Ht Hp Hplat Hprice Htid. cbv zeta.
  unfold handle_message. rewrite Ht, Hp, Hplat, Hprice, Htid. simpl.
  split; reflexivity.
Qed.

Lemma numeric_ticker_id_not_recorded_witness :
  total_volume (handle_message (quote_parse_topic (JNum 913256135)) quote_parse_payload
                  true true quote_frame_topic [Byte.x7b; Byte.x7d] (new true true)) = ∅.
Proof.
  destruct (numeric_ticker_id_not_recorded (quote_parse_topic (JNum 913256135))
              quote_parse_payload true quote_frame_topic [Byte.x7b; Byte.x7d]
              (new true true) (JObj [("tickerId", JNum 913256135)])
              (JObj [("volume", JNum 1500)]) 913256135)
    as [H _]; [reflexivity .. | exact H].
Defined.

(** X10: [connect] reports success exactly when the last connection event
    of the polling window ([ConnAck], [Disconnect] or a transport error)
    is a [ConnAck], or, when the window has none, when the connected flag
    was already set before the call: a stale flag lets [connect] succeed
    without any acknowledgement. *)
Theorem connect_follows_last_status (parse_topic : string -> option json)
    (parse_payload : list Byte.byte -> option json) (client_id : string)
    (window : list PollEvent) (st : StreamConn) :
  (fst (connect parse_topic parse_payload client_id window st) = Ok tt <->
   last_status window (is_connected st) = true) /\
  client (snd (connect parse_topic parse_payload client_id window st)) =
    Some (mkClient client_id true).
Proof.
  unfold connect.
  pose proof (run_loop_connected parse_topic parse_payload (price_callback st)
                (order_callback st) window
                (set_client (Some (mkClient client_id true)) st)) as Hc.
  destruct (StreamFacts.run_loop_frame parse_topic parse_payload (price_callback st)
              (order_callback st) window
              (set_client (Some (mkClient client_id true)) st)) as (Hcl & _ & _).
  simpl in Hc, Hcl. rewrite Hc.
  destruct (last_status window (is_connected st)); simpl.
  - split; [split; reflexivity|exact Hcl].
  - split; [split; intros H; discriminate H|exact Hcl].
Qed.

End StreamExtra.

(* ------------------------------------------------------------------ *)
(** ** Further properties of the session and account calls *)

Module ClientExtra.
Import Orders Clients.

(** What [get_account_id] returns depends on the answer only. *)
Lemma get_account_id_result (s1 s2 : LiveSession) (resp : HttpOutcome) :
  fst (get_account_id s1 resp) = fst (get_account_id s2 resp).
Proof.
  unfold get_account_id.
  destruct (response_json resp) as [result|e]; [|reflexivity].
  destruct (and_then (jget result "data") as_array) as [[|first rest]|]; try reflexivity.
  destruct (jget first "secAccountId") as [v|]; [|reflexivity].
  destruct (id_string v); reflexivity.
Qed.

Lemma get_account_id_state (s : LiveSession) (resp : HttpOutcome) :
  snd (get_account_id s resp) =
    match fst (get_account_id s resp) with
    | Ok id => set_account_id (Some id) s
    | Err _ => s
    end.
Proof.
  unfold get_account_id.
  destruct (response_json resp) as [result|e]; [|reflexivity].
  destruct (and_then (jget result "data") as_array) as [[|first rest]|]; try reflexivity.
  destruct (jget first "secAccountId") as [v|]; [|reflexivity].
  destruct (id_string v); reflexivity.
Qed.

(** X11: the account lookups change nothing but the id they report:
    when [get_account_id] succeeds, the session differs from the old one
    only by its [account_id], set to the id returned; when it fails
    (transport error, undecodable body, no or empty [data] array, missing
    [secAccountId] or one that is neither a string nor a number), the
    session is unchanged.  The same holds for the paper account id of
    [get_paper_account_id]. *)
Theorem account_lookup_only_sets_id (s : LiveSession) (p : PaperSession)
    (resp : HttpOutcome) :
  snd (get_account_id s resp) =
    match fst (get_account_id s resp) with
    | Ok id => set_account_id (Some id) s
    | Err _ => s
    end /\
  snd (get_paper_account_id p resp) =
    match fst (get_paper_account_id p resp) with
    | Ok id => mkPaper (base_client p) (Some id)
    | Err _ => p
    end.
Proof.
  split; [apply get_account_id_state|].
  unfold get_paper_account_id.
  destruct (response_json resp) as [result|e]; [|reflexivity].
  destruct (match result with JArr xs => Some xs | _ => _ end) as [[|first rest]|];
    try reflexivity.
  destruct (jget first "id") as [v|]; [|reflexivity].
  destruct (id_string v); reflexivity.
Qed.

(** X12: the paper account lookup accepts the account list either bare
    or wrapped in a [data] field, with the same outcome, while the live
    [get_account_id] rejects a bare array with [AccountNotFound].  In both,
    only the first account counts, and a numeric id is rendered in
    decimal. *)
Theorem account_list_shapes (s : LiveSession) (p : PaperSession) (code : Z)
    (xs rest : list json) (n : Z) :
  get_paper_account_id p (Response code (Some (JArr xs))) =
    get_paper_account_id p (Response code (Some (JObj [("data", JArr xs)]))) /\
  get_account_id s (Response code (Some (JArr xs))) = (Err AccountNotFound, s) /\
  get_account_id s (Response code
      (Some (JObj [("data", JArr (JObj [("secAccountId", JNum n)] :: rest))]))) =
    (Ok (pretty n), set_account_id (Some (pretty n)) s) /\
  get_paper_account_id p (Response code (Some (JArr (JObj [("id", JNum n)] :: rest)))) =
    (Ok (pretty n), mkPaper (base_client p) (Some (pretty n))).
Proof. repeat split; reflexivity. Qed.

(** X13: [get_trade_token] only ever sets the trade token: on success the
    session differs from the old one only by [trade_token], set to the
    token returned; on any failure the session is unchanged, and an answer
    without a string [data.tradeToken] gives
    [AuthenticationError "Failed to get trade token"]. *)
Theorem trade_token_only_sets_token (s : LiveSession) (resp : HttpOutcome) :
  snd (get_trade_token s resp) =
    match fst (get_trade_token s resp) with
    | Ok t => set_trade_token (Some t) s
    | Err _ => s
    end /\
  (forall result, response_json resp = Ok result ->
     and_then (and_then (jget result "data") (fun d => jget d "tradeToken")) as_str = None ->
     get_trade_token s resp = (Err (AuthenticationError "Failed to get trade token"), s)).
Proof.
  unfold get_trade_token. split.
  - destruct (response_json resp) as [result|e]; [|reflexivity].
    destruct (and_then _ as_str); reflexivity.
  - intros result Hr Ht. rewrite Hr, Ht. reflexivity.
Qed.

Section Refresh.
Variable LoginResponse : Type.
Variable decode_login : json -> option LoginResponse.
Variable parse_rfc3339 : string -> option Z.

(** X14: [refresh_login] returns [SessionExpired] and leaves the session
    untouched when the session holds no refresh token (whatever the server
    would answer, so no request matters), and when the server's answer
    decodes but carries no string [accessToken]. *)
Theorem refresh_session_expired (s : LiveSession) (resp : HttpOutcome) :
  (refresh_token s = None ->
   refresh_login LoginResponse decode_login parse_rfc3339 s resp = (Err SessionExpired, s)) /\
  (forall result, refresh_token s <> None -> response_json resp = Ok result ->
   and_then (jget result "accessToken") as_str = None ->
   refresh_login LoginResponse decode_login parse_rfc3339 s resp = (Err SessionExpired, s)).
Proof.
  unfold refresh_login. split.
  - intros H. rewrite H. reflexivity.
  - intros result Hrt Hr Ha. destruct (refresh_token s); [|contradiction].
    rewrite Hr, Ha. reflexivity.
Qed.

(** X15: a refresh whose answer carries an access token but no string
    [refreshToken] stores the new access token and drops the refresh
    token (even when the rest of the answer does not decode as a
    [LoginResponse]); the account id, trade token and uuid are kept, and
    every later [refresh_login] fails with [SessionExpired]. *)
Theorem refresh_drops_missing_refresh_token (s : LiveSession) (resp : HttpOutcome)
    (rt at_ : string) (result : json) :
  refresh_token s = Some rt -> response_json resp = Ok result ->
  and_then (jget result "accessToken") as_str = Some at_ ->
  and_then (jget result "refreshToken") as_str = None ->
  let s' := snd (refresh_login LoginResponse decode_login parse_rfc3339 s resp) in
  access_token s' = Some at_ /\ refresh_token s' = None /\
  account_id s' = account_id s /\ trade_token s' = trade_token s /\ uuid s' = uuid s /\
  (forall resp', refresh_login LoginResponse decode_login parse_rfc3339 s' resp' =
                 (Err SessionExpired, s')).
Proof.
  intros Hrt Hr Ha Hn. cbv zeta.
  assert (E : refresh_login LoginResponse decode_login parse_rfc3339 s resp =
              (decode_login_result LoginResponse decode_login result,
               set_tokens (Some at_) None (token_expire_of parse_rfc3339 result) s)).
  { unfold refresh_login. rewrite Hrt, Hr, Ha, Hn. reflexivity. }
  rewrite E. simpl. repeat split; reflexivity.
Qed.

End Refresh.

(** A token answer without a refresh token, for the witnesses. *)
Definition bare_token_answer : HttpOutcome :=
  Response 200 (Some (JObj [("accessToken", JStr "a2")])).

Definition refresh_session : LiveSession :=
  mkSession (Some "acc") (Some "tt") (Some "a1") (Some "r1") None None "did".

Lemma refresh_drops_missing_refresh_token_witness :
  refresh_token (snd (refresh_login unit (fun _ => Some tt) (fun _ => None)
                        refresh_session bare_token_answer)) = None.
Proof.
  destruct (refresh_drops_missing_refresh_token unit (fun _ => Some tt) (fun _ => None)
              refresh_session bare_token_answer "r1" "a2"
              (JObj [("accessToken", JStr "a2")]))
    as (_ & H & _); [reflexivity .. | exact H].
Defined.

Section LoginFacts.
Variable LoginResponse : Type.
Variable decode_login : json -> option LoginResponse.
Variable parse_rfc3339 : string -> option Z.

(** X16: [login] rejects an empty username, an empty password, and a
    username containing [@] that fails [validate_email], with
    [InvalidParameter] before any request: the outcome does not depend on
    the server's answers and the session is unchanged. *)
Theorem login_rejects_bad_credentials (s : LiveSession) (username password : string)
    (resp acct_resp : HttpOutcome) :
  username = "" \/ password = "" \/
  (Utils.has_char "@" username = true /\ Utils.validate_email username = false) ->
  exists msg, login LoginResponse decode_login parse_rfc3339 s username password resp acct_resp =
              (Err (InvalidParameter msg), s).
Proof.
  intros H. unfold login.
  destruct (String.eqb username "" || String.eqb password "") eqn:E.
  - eexists. reflexivity.
  - apply orb_false_iff in E as [Eu Ep].
    destruct H as [Hu|[Hp|[Hat Hv]]].
    + subst username. discriminate Eu.
    + subst password. discriminate Ep.
    + unfold Utils.get_account_type. rewrite Hat, Hv. eexists. reflexivity.
Qed.

(** X17: when the login answer decodes but carries no string
    [accessToken], [login] fails with [AuthenticationError "Login failed"]
    and leaves the session unchanged, without the account lookup. *)
Theorem login_without_token_fails (s : LiveSession) (username password : string)
    (resp acct_resp : HttpOutcome) (result : json) (k : Z) :
  username <> "" -> password <> "" -> Utils.get_account_type username = Ok k ->
  response_json resp = Ok result ->
  and_then (jget result "accessToken") as_str = None ->
  login LoginResponse decode_login parse_rfc3339 s username password resp acct_resp =
    (Err (AuthenticationError "Login failed"), s).
Proof.
  intros Hu Hp Hk Hr Ha. unfold login.
  apply String.eqb_neq in Hu, Hp. rewrite Hu, Hp. simpl.
  rewrite Hk, Hr, Ha. reflexivity.
Qed.

(** X18: when the login answer carries an access token but the account
    lookup that follows fails, [login] returns that lookup's error, yet
    the session keeps the new access token, refresh token and uuid; its
    account id stays what it was. *)
Theorem login_keeps_tokens_when_account_lookup_fails (s : LiveSession)
    (username password : string) (resp acct_resp : HttpOutcome) (result : json)
    (k : Z) (at_ : string) (e : WebullError) :
  username <> "" -> password <> "" -> Utils.get_account_type username = Ok k ->
  response_json resp = Ok result ->
  and_then (jget result "accessToken") as_str = Some at_ ->
  fst (get_account_id s acct_resp) = Err e ->
  let r := login LoginResponse decode_login parse_rfc3339 s username password resp acct_resp in
  fst r = Err e /\ access_token (snd r) = Some at_ /\
  refresh_token (snd r) = and_then (jget result "refreshToken") as_str /\
  uuid (snd r) = and_then (jget result "uuid") as_str /\
  account_id (snd r) = account_id s.
Proof.
  intros Hu Hp Hk Hr Ha He. cbv zeta. unfold login.
  apply String.eqb_neq in Hu, Hp. rewrite Hu, Hp. simpl.
  rewrite Hk, Hr, Ha.
  set (s1 := set_uuid _ _).
  assert (He1 : fst (get_account_id s1 acct_resp) = Err e).
  { rewrite (get_account_id_result s1 s). exact He. }
  pose proof (get_account_id_state s1 acct_resp) as Hs.
  destruct (get_account_id s1 acct_resp) as [r1 s2] eqn:Eg. simpl in He1, Hs.
  rewrite He1 in Hs. subst r1 s2. simpl. repeat split; reflexivity.
Qed.

End LoginFacts.

Lemma login_rejects_bad_credentials_witness :
  exists msg, login unit (fun _ => Some tt) (fun _ => None) refresh_session "trader@localhost" "pw"
                bare_token_answer bare_token_answer = (Err (InvalidParameter msg), refresh_session).
Proof.
  apply (login_rejects_bad_credentials unit (fun _ => Some tt) (fun _ => None)
           refresh_session "trader@localhost" "pw" bare_token_answer bare_token_answer).
  right. right. split; reflexivity.
Defined.

Lemma login_without_token_fails_witness :
  login unit (fun _ => Some tt) (fun _ => None) refresh_session "+15550100" "pw"
    (Response 401 (Some (JObj [("msg", JStr "bad password")]))) bare_token_answer =
  (Err (AuthenticationError "Login failed"), refresh_session).
Proof.
  apply (login_without_token_fails unit (fun _ => Some tt) (fun _ => None)
           refresh_session "+15550100" "pw"
           (Response 401 (Some (JObj [("msg", JStr "bad password")]))) bare_token_answer
           (JObj [("msg", JStr "bad password")]) 1); try discriminate; reflexivity.
Defined.

Lemma login_keeps_tokens_when_account_lookup_fails_witness :
  access_token (snd (login unit (fun _ => Some tt) (fun _ => None) refresh_session
                       "+15550100" "pw" bare_token_answer (SendError "timeout"))) = Some "a2".
Proof.
  destruct (login_keeps_tokens_when_account_lookup_fails unit (fun _ => Some tt)
              (fun _ => None) refresh_session "+15550100" "pw" bare_token_answer
              (SendError "timeout") (JObj [("accessToken", JStr "a2")]) 1 "a2"
              (RequestError "timeout"))
    as (_ & H & _); [discriminate | discriminate | reflexivity .. | exact H].
Defined.

End ClientExtra.

(* ------------------------------------------------------------------ *)
(** ** Open orders, bars and e-mail validation *)

Module DataExtra.
Import Orders Clients.

Section Decode.
Variable Order : Type.
Variable decode_order : json -> option Order.

Lemma decode_orders_none (xs : list json) :
  (exists x, In x xs /\ decode_order x = None) -> decode_orders Order decode_order xs = None.
Proof.
  induction xs as [|y xs IH]; intros (x & Hx & Hd); [destruct Hx|].
  simpl. destruct Hx as [<-|Hx].
  - rewrite Hd. reflexivity.
  - destruct (decode_order y); [|reflexivity].
    rewrite IH; [reflexivity|exists x; split; assumption].
Qed.

Lemma decode_orders_some (xs : list json) :
  (forall x, In x xs -> decode_order x <> None) ->
  exists os, decode_orders Order decode_order xs = Some os /\ length os = length xs.
Proof.
  induction xs as [|y xs IH]; intros H; simpl; [exists []; split; reflexivity|].
  destruct (decode_order y) as [o|] eqn:Ey; [|exfalso; exact (H y (or_introl eq_refl) Ey)].
  destruct IH as (os & Hos & Hlen); [intros x Hx; apply H; right; exact Hx|].
  rewrite Hos. exists (o :: os). simpl. split; [reflexivity|rewrite Hlen; reflexivity].
Qed.

End Decode.

(** X19: the live [get_orders] decodes the account's [openOrders] all or
    nothing: if any element fails to decode, it returns an empty list
    rather than an error or the other orders; if every element decodes, it
    returns one order per element. *)
Theorem live_orders_all_or_nothing (Order : Type) (decode_order : json -> option Order)
    (s : LiveSession) (resp : HttpOutcome) (v : json) (xs : list json) :
  account_id s <> None -> response_json resp = Ok v -> jget v "openOrders" = Some (JArr xs) ->
  ((exists x, In x xs /\ decode_order x = None) ->
   live_get_orders Order decode_order s resp = Ok []) /\
  ((forall x, In x xs -> decode_order x <> None) ->
   exists os, live_get_orders Order decode_order s resp = Ok os /\ length os = length xs).
Proof.
  intros Ha Hr Ho. unfold live_get_orders, get_account_raw.
  destruct (account_id s); [|contradiction]. rewrite Hr, Ho. simpl. split.
  - intros H. rewrite decode_orders_none by exact H. reflexivity.
  - intros H. destruct (decode_orders_some Order decode_order xs H) as (os & E & L).
    rewrite E. exists os. split; [reflexivity|exact L].
Qed.

Definition orders_session : LiveSession :=
  mkSession (Some "acc") (Some "tt") (Some "a1") (Some "r1") None None "did".

Lemma live_orders_all_or_nothing_witness :
  live_get_orders Z as_i64 orders_session
    (Response 200 (Some (JObj [("openOrders", JArr [JNum 1; JStr "x"])]))) = Ok [].
Proof.
  destruct (live_orders_all_or_nothing Z as_i64 orders_session
              (Response 200 (Some (JObj [("openOrders", JArr [JNum 1; JStr "x"])])))
              (JObj [("openOrders", JArr [JNum 1; JStr "x"])]) [JNum 1; JStr "x"])
    as [H _]; [discriminate | reflexivity .. | ].
  apply H. exists (JStr "x"). split; [right; left; reflexivity|reflexivity].
Defined.

(** A [data] entry [get_bars] turns into a bar: a string of at least
    seven comma separated fields. *)
Definition bar_row_ok (v : json) : bool :=
  match as_str v with
  | Some row => Nat.leb 7 (length (Utils.split_on ","%char row))
  | None => false
  end.

Section BarsFacts.
Variable f64 : Type.
Variable zero : f64.
Variable parse_f64 : string -> option f64.
Variable parse_i64 : string -> option Z.

Lemma collect_bars_length (rows : list json) :
  length (collect_bars f64 zero parse_f64 parse_i64 rows) = length (List.filter bar_row_ok rows).
Proof.
  induction rows as [|r rows IH]; simpl; [reflexivity|].
  unfold parse_bar_row, bar_row_ok.
  destruct (as_str r) as [row|]; [|exact IH].
  destruct (Nat.leb 7 _); simpl; rewrite IH; reflexivity.
Qed.

(** X20: [get_bars] rejects an interval outside its list with
    [InvalidParameter] whatever the server answers; with a valid interval
    and an answer whose first element has a [data] array, it returns one
    bar per entry that is a string of at least seven comma separated
    fields, silently skipping the others; such an entry with exactly seven
    fields, or whose eighth field is [null], gets a [vwap] of zero. *)
Theorem get_bars_rows (interval : string) (code : Z) (first : json) (rest rows : list json) :
  (existsb (String.eqb interval) Utils.valid_intervals = false ->
   forall resp, get_bars f64 zero parse_f64 parse_i64 interval resp =
                Err (InvalidParameter ("Invalid interval: " ++ interval))) /\
  (existsb (String.eqb interval) Utils.valid_intervals = true ->
   jget first "data" = Some (JArr rows) ->
   exists bars,
     get_bars f64 zero parse_f64 parse_i64 interval (Response code (Some (JArr (first :: rest)))) =
       Ok bars /\ length bars = length (List.filter bar_row_ok rows)) /\
  (forall r row, as_str r = Some row ->
   let parts := Utils.split_on ","%char row in
   7 <= length parts -> (length parts = 7 \/ nth 7 parts "" = "null") ->
   exists b, parse_bar_row f64 zero parse_f64 parse_i64 r = Some b /\ bar_vwap f64 b = zero).
Proof.
  unfold get_bars, Utils.parse_interval. split; [|split].
  - intros H resp. rewrite H. reflexivity.
  - intros H Hd. rewrite H. simpl. rewrite Hd. simpl.
    eexists. split; [reflexivity|apply collect_bars_length].
  - intros r row Hr. cbv zeta. intros Hlen Hv.
    unfold parse_bar_row. rewrite Hr.
    assert (Hle : Nat.leb 7 (length (Utils.split_on ","%char row)) = true)
      by (apply Nat.leb_le; exact Hlen).
    rewrite Hle. eexists. split; [reflexivity|]. simpl.
    destruct Hv as [H7|Hnull].
    + rewrite H7. reflexivity.
    + rewrite Hnull. simpl. rewrite andb_false_r. reflexivity.
Qed.

End BarsFacts.

(** [str::split] glued back with its separator. *)
Fixpoint join_on (c : ascii) (l : list string) : string :=
  match l with
  | [] => ""
  | x :: rest =>
      match rest with
      | [] => x
      | _ => x ++ String c (join_on c rest)
      end
  end.

Lemma split_on_cons (c : ascii) (s : string) :
  exists p ps, Utils.split_on c s = p :: ps.
Proof.
  induction s as [|a s IH]; simpl; [eexists; eexists; reflexivity|].
  destruct IH as (p & ps & E). rewrite E.
  destruct (Ascii.eqb a c); eexists; eexists; reflexivity.
Qed.

Lemma split_on_join (c : ascii) (s : string) : join_on c (Utils.split_on c s) = s.
Proof.
  induction s as [|a s IH]; [reflexivity|]. simpl.
  destruct (split_on_cons c s) as (p & ps & E). rewrite E in *.
  destruct (Ascii.eqb a c) eqn:Ea.
  - apply Ascii.eqb_eq in Ea. subst a. rewrite <- IH. reflexivity.
  - rewrite <- IH. destruct ps; reflexivity.
Qed.

Lemma split_on_pieces (c : ascii) (s : string) :
  forall p, In p (Utils.split_on c s) -> Utils.has_char c p = false.
Proof.
  induction s as [|a s IH]; simpl; intros p Hp.
  - destruct Hp as [<-|[]]. reflexivity.
  - destruct (split_on_cons c s) as (q & qs & E). rewrite E in *.
    destruct (Ascii.eqb a c) eqn:Ea.
    + destruct Hp as [<-|Hp]; [reflexivity|]. apply IH. exact Hp.
    + destruct Hp as [<-|Hp].
      * simpl. rewrite Ea. apply IH. left. reflexivity.
      * apply IH. right. exact Hp.
Qed.

Lemma split_on_single (c : ascii) (s : string) :
  Utils.has_char c s = false -> Utils.split_on c s = [s].
Proof.
  induction s as [|a s IH]; simpl; intros H; [reflexivity|].
  apply orb_false_iff in H as [Ha Hs]. rewrite Ha, (IH Hs). reflexivity.
Qed.

Lemma split_on_sep (c : ascii) (l d : string) :
  Utils.has_char c l = false ->
  Utils.split_on c (l ++ String c d) = l :: Utils.split_on c d.
Proof.
  induction l as [|a l IH]; simpl; intros H.
  - rewrite Ascii.eqb_refl. reflexivity.
  - apply orb_false_iff in H as [Ha Hl]. rewrite (IH Hl), Ha. reflexivity.
Qed.

Lemma split_on_length (c : ascii) (s : string) :
  Utils.has_char c s = true <-> 2 <= length (Utils.split_on c s).
Proof.
  induction s as [|a s IH]; simpl.
  - split; [discriminate|lia].
  - destruct (split_on_cons c s) as (p & ps & E). rewrite E in *.
    destruct (Ascii.eqb a c); simpl; [split; [intros _; lia|reflexivity]|].
    exact IH.
Qed.

(** X21: [validate_email] accepts exactly the strings made of a nonempty
    local part, one [@], and a domain, where neither part contains another
    [@], the domain contains a dot, and none of the dot separated labels of
    the domain is empty. *)
Theorem validate_email_iff (email : string) :
  Utils.validate_email email = true <->
  exists local domain,
    email = local ++ String "@" domain /\ local <> "" /\
    Utils.has_char "@" local = false /\ Utils.has_char "@" domain = false /\
    Utils.has_char "." domain = true /\
    (forall label, In label (Utils.split_on "." domain) -> label <> "").
Proof.
  split.
  - unfold Utils.validate_email. intros H.
    pose proof (split_on_join "@" email) as J.
    pose proof (split_on_pieces "@" email) as P.
    destruct (Utils.split_on "@" email) as [|l [|d [|x rest]]] eqn:E;
      simpl in H; try discriminate.
    destruct (Nat.ltb (length (Utils.split_on "." d)) 2) eqn:Hlt; [discriminate|].
    apply andb_true_iff in H as [Hl Hd].
    exists l, d. split; [symmetry; exact J|split; [|split; [|split; [|split]]]].
    + intros ->. discriminate Hl.
    + apply P. left. reflexivity.
    + apply P. right. left. reflexivity.
    + apply split_on_length. apply Nat.ltb_ge. exact Hlt.
    + intros label Hin ->. apply forallb_forall with (x := "") in Hd; [discriminate|exact Hin].
  - intros (l & d & -> & Hl & Hla & Hda & Hdot & Hlab).
    unfold Utils.validate_email.
    rewrite (split_on_sep "@" l d Hla), (split_on_single "@" d Hda). simpl.
    apply split_on_length, Nat.ltb_ge in Hdot. rewrite Hdot. simpl.
    apply andb_true_iff. split.
    + destruct l; [contradiction|reflexivity].
    + apply forallb_forall. intros label Hin.
      destruct label; [exfalso; exact (Hlab "" Hin eq_refl)|reflexivity].
Qed.

End DataExtra.

(* ------------------------------------------------------------------ *)
(** ** Order builders *)

Module BuilderExtra.
Import Orders.

(** X22: the typed constructors of [PlaceOrderRequest] ([market],
    [limit], [stop], [stop_limit]) followed by the ticker, action and
    quantity setters always build: the request has the constructor's type
    and prices, time in force [Day], regular hours only, and no serial id
    or combo type. *)
Theorem typed_constructors_build {f64 : Type} (tid : Z) (a : OrderAction) (q p sp lp : f64) :
  let fill (b : PlaceOrderRequestBuilder f64) := with_quantity q (with_action a (with_ticker_id tid b)) in
  build f64 (fill request_market) = Built (mkRequest tid a Market Day q None None false None None) /\
  build f64 (fill (request_limit p)) = Built (mkRequest tid a Limit Day q (Some p) None false None None) /\
  build f64 (fill (request_stop p)) = Built (mkRequest tid a Stop Day q None (Some p) false None None) /\
  build f64 (fill (request_stop_limit sp lp)) =
    Built (mkRequest tid a StopLimit Day q (Some lp) (Some sp) false None None).
Proof. repeat split. Qed.

(** X23: an explicitly chosen order type is kept whatever prices are set
    afterwards: the price setters of both builders never change the order
    type, and every request [build] or the fluent builder produces carries
    the builder's order type (for the fluent builder, the explicit one when
    there is one). So a market builder given a limit price builds, and the
    fluent market order is placed, as a [Market] request carrying that
    limit price, and a limit builder given a stop price stays a [Limit]
    request carrying both prices. *)
Theorem explicit_type_wins {f64 : Type} :
  (forall (b : PlaceOrderRequestBuilder f64) (p : f64),
     b_order_type (with_limit_price p b) = b_order_type b /\
     b_order_type (with_stop_price p b) = b_order_type b) /\
  (forall (f : FluentOrder f64) (p : f64),
     f_order_type (fluent_limit p f) = f_order_type f /\
     f_order_type (fluent_stop p f) = f_order_type f) /\
  (forall (b : PlaceOrderRequestBuilder f64) r,
     build f64 b = Built r -> order_type r = b_order_type b) /\
  (forall (f : FluentOrder f64) ot r,
     f_order_type f = Some ot -> fluent_request f64 f = Ok r -> order_type r = ot) /\
  (forall (tid : Z) (a : OrderAction) (q p sp : f64),
     build f64 (with_limit_price p (with_quantity q (with_action a (with_ticker_id tid request_market)))) =
       Built (mkRequest tid a Market Day q (Some p) None false None None) /\
     fluent_request f64 (fluent_limit p (fluent_quantity q (fluent_action a
                        (fluent_ticker_id tid fluent_market)))) =
       Ok (mkRequest tid a Market Day q (Some p) None false None None) /\
     build f64 (with_stop_price sp (with_quantity q (with_action a (with_ticker_id tid (request_limit p))))) =
       Built (mkRequest tid a Limit Day q (Some p) (Some sp) false None None) /\
     fluent_request f64 (fluent_stop sp (fluent_quantity q (fluent_action a
                        (fluent_ticker_id tid (fluent_limit_order p))))) =
       Ok (mkRequest tid a Limit Day q (Some p) (Some sp) false None None)).
Proof.
  split; [intros b p; split; reflexivity|].
  split; [intros f p; split; reflexivity|].
  split.
  { intros b r. unfold build.
    destruct (b_ticker_id b), (b_action b), (b_quantity b); try discriminate.
    destruct (b_order_type b), (b_limit_price b), (b_stop_price b);
      intros H; try discriminate H; inversion H; reflexivity. }
  split.
  { intros f ot r Hot. unfold fluent_request. rewrite Hot.
    destruct (f_ticker_id f), (f_action f), (f_quantity f); try discriminate.
    destruct ot, (f_limit_price f), (f_stop_price f); simpl;
      intros H; try discriminate H; inversion H; reflexivity. }
  intros tid a q p sp. repeat split.
Qed.

(** X24: with no explicit order type, the fluent builder never rejects an
    order for its prices: once ticker, action and quantity are set it
    yields a request, and that request is one [PlaceOrderRequestBuilder]'s
    [build] accepts with the same fields. *)
Theorem auto_detect_always_valid {f64 : Type} (f : FluentOrder f64) (tid : Z)
    (a : OrderAction) (q : f64) :
  f_order_type f = None -> f_ticker_id f = Some tid -> f_action f = Some a ->
  f_quantity f = Some q ->
  exists r, fluent_request f64 f = Ok r /\
    build f64 (mkBuilder (Some tid) (Some a) (order_type r) (f_time_in_force f) (Some q)
             (f_limit_price f) (f_stop_price f) (f_outside_regular_trading_hour f)
             (f_serial_id f) (f_combo_type f)) = Built r.
Proof.
  intros Ht Htid Ha Hq.
  destruct f as [ftid fa fot ftif fq flp fsp foh fsid fct]; simpl in *; subst.
  destruct flp, fsp; simpl; eexists; split; reflexivity.
Qed.

Lemma auto_detect_always_valid_witness :
  exists r, fluent_request Z (fluent_stop 95%Z (fluent_quantity 10%Z
              (fluent_action Buy (fluent_ticker_id 913256135%Z fluent_new)))) = Ok r /\
            order_type r = Stop.
Proof.
  destruct (auto_detect_always_valid
              (fluent_stop 95%Z (fluent_quantity 10%Z
                 (fluent_action Buy (fluent_ticker_id 913256135%Z fluent_new))))
              913256135%Z Buy 10%Z eq_refl eq_refl eq_refl eq_refl) as (r & Hr & _).
  exists r. split; [exact Hr|].
  simpl in Hr. injection Hr as <-. reflexivity.
Defined.

End BuilderExtra.

(* ------------------------------------------------------------------ *)
(** ** Paper login *)

Module PaperLoginExtra.
Import Orders Clients.

Lemma get_paper_account_id_state (p : PaperSession) (resp : HttpOutcome) :
  snd (get_paper_account_id p resp) =
    match fst (get_paper_account_id p resp) with
    | Ok id => mkPaper (base_client p) (Some id)
    | Err _ => p
    end.
Proof.
  unfold get_paper_account_id.
  destruct (response_json resp) as [result|e]; [|reflexivity].
  destruct (match result with JArr xs => Some xs | _ => _ end) as [[|first rest]|];
    try reflexivity.
  destruct (jget first "id") as [v|]; [|reflexivity].
  destruct (id_string v); reflexivity.
Qed.

Section PaperLogin.
Variable LoginResponse : Type.
Variable decode_login : json -> option LoginResponse.
Variable parse_rfc3339 : string -> option Z.

(** X25: [PaperWebullClient::login] is not atomic: when the live login
    succeeds but the paper account lookup that follows fails, it returns
    that lookup's error while its live session stays logged in (as the
    live login left it) and its paper account id stays what it was; when
    the live login fails, the paper account id is untouched as well. *)
Theorem paper_login_not_atomic (p : PaperSession) (username password : string)
    (resp acct_resp paper_resp : HttpOutcome) :
  (forall r b e,
     login LoginResponse decode_login parse_rfc3339 (base_client p) username password
       resp acct_resp = (Ok r, b) ->
     fst (get_paper_account_id (mkPaper b (paper_account_id p)) paper_resp) = Err e ->
     paper_login LoginResponse decode_login parse_rfc3339 p username password
       resp acct_resp paper_resp = (Err e, mkPaper b (paper_account_id p))) /\
  (forall e b,
     login LoginResponse decode_login parse_rfc3339 (base_client p) username password
       resp acct_resp = (Err e, b) ->
     paper_login LoginResponse decode_login parse_rfc3339 p username password
       resp acct_resp paper_resp = (Err e, mkPaper b (paper_account_id p))).
Proof.
  unfold paper_login. split.
  - intros r b e Hl He. rewrite Hl.
    pose proof (get_paper_account_id_state (mkPaper b (paper_account_id p)) paper_resp) as Hs.
    destruct (get_paper_account_id (mkPaper b (paper_account_id p)) paper_resp)
      as [r1 p1] eqn:E.
    simpl in He, Hs. rewrite He in Hs. subst. reflexivity.
  - intros e b Hl. rewrite Hl. reflexivity.
Qed.

End PaperLogin.

(** X26: once the preconditions hold (live: an account id and a trade
    token; paper: a paper account id, whatever the trade token of its live
    session), [cancel_order] never fails on the server's answer: it
    returns [Ok true] for a 2xx status and [Ok false] otherwise, without
    reading the body, so even an undecodable error body gives [Ok false]. *)
Theorem cancel_reports_status (s : LiveSession) (p : PaperSession) (order_id : string)
    (code : Z) (body : option json) :
  account_id s <> None -> trade_token s <> None -> paper_account_id p <> None ->
  live_cancel_order s order_id (Response code body) = Ok (is_success code) /\
  paper_cancel_order p order_id (Response code body) = Ok (is_success code).
Proof.
  intros Ha Ht Hp. unfold live_cancel_order, paper_cancel_order.
  destruct (account_id s); [|contradiction].
  destruct (trade_token s); [|contradiction].
  destruct (paper_account_id p); [|contradiction].
  split; reflexivity.
Qed.

Lemma cancel_reports_status_witness :
  paper_cancel_order (mkPaper (mkSession None None (Some "a1") None None None "did") (Some "p1"))
    "77" (Response 500 None) = Ok false.
Proof.
  destruct (cancel_reports_status
              (mkSession (Some "acc") (Some "tt") None None None None "did")
              (mkPaper (mkSession None None (Some "a1") None None None "did") (Some "p1"))
              "77" 500 None) as [_ H]; [discriminate .. | exact H].
Defined.

End PaperLoginExtra.
